(** * shred: a shallow embedding of [shred.c] and its overwrite engine

    The program overwrites a regular file in place.  Everything it does goes
    through the kernel and the allocator ([open], [lseek], [write], [read],
    [close], [getrlimit], [malloc], [free]), so the embedding is a small
    state-and-fault monad over a [World]: the target file, its open file
    description, the heap and per-call counters.  The result of each call
    that the program cannot control (does [malloc] succeed, how many bytes
    does [read] deliver, ...) comes from an environment [Env], indexed by
    the number of earlier calls of the same kind.  Properties are stated
    for every environment.

    Integer types: [size_t] and [rlim_t] are unsigned 64-bit integers (LP64:
    OpenBSD/amd64, Linux/x86-64); arithmetic that can overflow is reduced
    modulo [2^64].  [int] and [off_t] values are plain [Z]. *)

From Stdlib Require Import String.
From Stdlib Require Import ZArith List Lia Bool.
From Stdlib Require Import Init.Byte.
Import ListNotations.
Local Open Scope Z_scope.

(** ** Machine integers *)

Definition SIZE_MOD : Z := 2 ^ 64.

(** conversion to [size_t] / [rlim_t] *)
Definition to_size_t (x : Z) : Z := x mod SIZE_MOD.

(** ** The options structure, [struct shred_opts] *)

Record shred_opts := mk_opts {
  blocks      : Z;  (* size_t: the amount of blocks of memory we will allocate *)
  block_len   : Z;  (* size_t: the size of each block *)
  safe        : Z;  (* int: if true, write 1 byte at a time *)
  verbose     : Z;  (* int *)
  recursive   : Z;  (* int *)
  interations : Z   (* int: how many times to perform the shred on each file *)
}.

Definition DEF_SAFE : Z := 0.
Definition DEF_VERBOSE : Z := 0.
Definition DEF_RECURSIVE : Z := 0.
Definition DEF_ITERATIONS : Z := 3.

(** the options [main] builds; [blocks] and [block_len] are left
    uninitialised there and are set by [getblocks] before any use *)
Definition default_opts (b bl : Z) : shred_opts :=
  mk_opts b bl DEF_SAFE DEF_VERBOSE DEF_RECURSIVE DEF_ITERATIONS.

Definition set_plan (o : shred_opts) (b bl : Z) : shred_opts :=
  mk_opts b bl (safe o) (verbose o) (recursive o) (interations o).

Definition set_safe (o : shred_opts) (s : Z) : shred_opts :=
  mk_opts (blocks o) (block_len o) s (verbose o) (recursive o) (interations o).

Definition set_interations (o : shred_opts) (k : Z) : shred_opts :=
  mk_opts (blocks o) (block_len o) (safe o) (verbose o) (recursive o) k.

(** ** The world *)

(** kinds of calls the program makes; each kind has its own counter *)
Inductive syscall :=
| SysOpen | SysLseek | SysWrite | SysClose | SysGetrlimit
| SysMalloc | SysFree | SysDevOpen | SysRead
| SysStderr | SysStdout.

Definition syscall_eqb (a b : syscall) : bool :=
  match a, b with
  | SysOpen, SysOpen | SysLseek, SysLseek | SysWrite, SysWrite
  | SysClose, SysClose | SysGetrlimit, SysGetrlimit
  | SysMalloc, SysMalloc | SysFree, SysFree | SysDevOpen, SysDevOpen
  | SysRead, SysRead | SysStderr, SysStderr | SysStdout, SysStdout => true
  | _, _ => false
  end.

Record World := mk_world {
  file_data : list byte;      (* contents of the target regular file *)
  file_pos  : nat;            (* offset of its open file description *)
  tfd       : option Z;       (* the descriptor open on the target, if any *)
  dev_fds   : nat;            (* descriptors open on the random device *)
  live_bufs : nat;            (* buffers allocated and not yet freed *)
  calls     : syscall -> nat  (* how many calls of each kind were made *)
}.

Definition init_world (d : list byte) : World :=
  mk_world d 0%nat None 0%nat 0%nat (fun _ => 0%nat).

(** how [write] on the target may go *)
Inductive write_answer :=
| WriteError                (* -1 *)
| WriteAll                  (* every byte asked for is written *)
| WriteShort (k : nat).     (* at most [k] bytes are written *)

(** what the outside world answers; [env_x i] is the answer to the [i]-th
    call of kind [x] (counting from 0) *)
Record Env := mk_env {
  env_open    : nat -> bool;               (* open(path, O_RDWR) succeeds *)
  env_lseek   : nat -> bool;               (* lseek succeeds *)
  env_write   : nat -> write_answer;       (* how the kernel serves a write *)
  env_rlimit  : nat -> option Z;           (* None: getrlimit fails;
                                              Some B: rl.rlim_cur *)
  env_malloc  : nat -> bool;               (* malloc returns non-null *)
  env_fresh   : nat -> nat -> byte;        (* contents of the fresh block *)
  env_devopen : nat -> bool;               (* open(path, O_RDONLY) succeeds *)
  env_read    : nat -> option (list byte)  (* None: error; Some bs: the bytes
                                              the device has to offer *)
}.

(** descriptor numbers handed out by [open] *)
Definition TARGET_FD : Z := 3.
Definition DEV_FD : Z := 4.

(** ** The monad: state passing, with a fault for a fatal signal *)

Inductive res (A : Type) : Type :=
| Val (a : A)
| Fault.                        (* SIGFPE: integer division by zero *)
Arguments Val {A} a.
Arguments Fault {A}.

Definition M (A : Type) : Type := World -> World * res A.

Definition ret {A} (a : A) : M A := fun w => (w, Val a).

Definition bind {A B} (m : M A) (k : A -> M B) : M B :=
  fun w => match m w with
           | (w', Val a) => k a w'
           | (w', Fault) => (w', Fault)
           end.

Notation "x <- c1 ;; c2" := (bind c1 (fun x => c2))
  (at level 61, c1 at next level, right associativity).
Notation "c1 ;; c2" := (bind c1 (fun _ => c2))
  (at level 61, right associativity).

Definition bump (k : syscall) (c : syscall -> nat) : syscall -> nat :=
  fun k' => if syscall_eqb k k' then S (c k') else c k'.

Definition tick (k : syscall) (w : World) : World :=
  mk_world (file_data w) (file_pos w) (tfd w) (dev_fds w) (live_bufs w)
           (bump k (calls w)).

Definition set_file (w : World) (d : list byte) (p : nat) : World :=
  mk_world d p (tfd w) (dev_fds w) (live_bufs w) (calls w).

Definition set_tfd (w : World) (f : option Z) : World :=
  mk_world (file_data w) (file_pos w) f (dev_fds w) (live_bufs w) (calls w).

Definition set_dev_fds (w : World) (n : nat) : World :=
  mk_world (file_data w) (file_pos w) (tfd w) n (live_bufs w) (calls w).

Definition set_live_bufs (w : World) (n : nat) : World :=
  mk_world (file_data w) (file_pos w) (tfd w) (dev_fds w) n (calls w).

Definition is_tfd (w : World) (fd : Z) : bool :=
  match tfd w with
  | Some f => Z.eqb f fd
  | None => false
  end.

(** the bytes of a regular file after [bs] is written at offset [p]; a
    write of no bytes changes nothing, a write past the end fills the gap
    with zero bytes *)
Definition write_at (d : list byte) (p : nat) (bs : list byte) : list byte :=
  match bs with
  | [] => d
  | _ => firstn p d ++ repeat x00 (p - length d) ++ bs
           ++ skipn (p + length bs) d
  end.

(** the byte count of a write of [n] bytes, [None] for an error *)
Definition write_count (a : write_answer) (n : nat) : option nat :=
  match a with
  | WriteError => None
  | WriteAll => Some n
  | WriteShort k => Some (Nat.min k n)
  end.

Inductive whence := SEEK_SET | SEEK_CUR | SEEK_END.

(** [memset(buf, 0, n)] *)
Definition memset0 (buf : list byte) (n : Z) : list byte :=
  repeat x00 (Nat.min (Z.to_nat n) (length buf))
    ++ skipn (Z.to_nat n) buf.

Section Program.

Variable env : Env.

(** ** Kernel and allocator calls *)

(** [fprintf(stderr, ...)] and [fprintf(stdout, ...)] *)
Definition print_err : M unit := fun w => (tick SysStderr w, Val tt).
Definition print_out : M unit := fun w => (tick SysStdout w, Val tt).

(** [open(path, O_RDWR)]: the descriptor, or -1 *)
Definition sys_open (path : string) : M Z := fun w =>
  let w1 := tick SysOpen w in
  if env_open env (calls w SysOpen)
  then (set_tfd (set_file w1 (file_data w1) 0%nat) (Some TARGET_FD),
        Val TARGET_FD)
  else (w1, Val (-1)).

(** [close(fd)]: closes the random device when [fd] is its descriptor and
    it is open, the target when [fd] is the target's descriptor, and
    nothing otherwise (EBADF) *)
Definition sys_close (fd : Z) : M unit := fun w =>
  let w1 := tick SysClose w in
  if (fd =? DEV_FD) && (0 <? dev_fds w)%nat
  then (set_dev_fds w1 (pred (dev_fds w1)), Val tt)
  else if is_tfd w fd then (set_tfd w1 None, Val tt)
  else (w1, Val tt).

(** [lseek(fd, off, whence)]: the new offset, or -1 (EBADF on a
    descriptor that is not open, EINVAL on a negative offset) *)
Definition sys_lseek (fd : Z) (off : Z) (wh : whence) : M Z := fun w =>
  let w1 := tick SysLseek w in
  if is_tfd w fd && env_lseek env (calls w SysLseek)
  then
    let base := match wh with
                | SEEK_SET => 0
                | SEEK_CUR => Z.of_nat (file_pos w)
                | SEEK_END => Z.of_nat (length (file_data w))
                end in
    if base + off <? 0 then (w1, Val (-1))
    else (set_file w1 (file_data w1) (Z.to_nat (base + off)),
          Val (base + off))
  else (w1, Val (-1)).

(** [write(fd, buf, n)]: [buf] is [None] for the null pointer.  The
    number of bytes written, or -1: EBADF on a descriptor that is not
    open, EFAULT when [n] bytes are asked for and [buf] is not readable
    memory. *)
Definition sys_write (fd : Z) (buf : option (list byte)) (n : Z) : M Z :=
  fun w =>
  let w1 := tick SysWrite w in
  if negb (is_tfd w fd) then (w1, Val (-1))
  else if n =? 0 then (w1, Val 0)
  else match buf with
       | None => (w1, Val (-1))
       | Some bs =>
           match write_count (env_write env (calls w SysWrite))
                             (Z.to_nat n) with
           | None => (w1, Val (-1))
           | Some k =>
               let chunk := firstn k bs in
               (set_file w1 (write_at (file_data w1) (file_pos w1) chunk)
                         (file_pos w1 + length chunk)%nat,
                Val (Z.of_nat (length chunk)))
           end
       end.

(** [getrlimit(RLIMIT_DATA, &rl)]: [rl.rlim_cur], or [None] for -1 *)
Definition sys_getrlimit : M (option Z) := fun w =>
  (tick SysGetrlimit w,
   Val (option_map to_size_t (env_rlimit env (calls w SysGetrlimit)))).

(** [malloc(n)]: a block of [n] bytes of unspecified contents, or null *)
Definition sys_malloc (n : Z) : M (option (list byte)) := fun w =>
  let w1 := tick SysMalloc w in
  if env_malloc env (calls w SysMalloc)
  then (set_live_bufs w1 (S (live_bufs w1)),
        Val (Some (map (env_fresh env (calls w SysMalloc))
                       (seq 0 (Z.to_nat n)))))
  else (w1, Val None).

(** [free(p)] on a non-null pointer *)
Definition sys_free : M unit := fun w =>
  let w1 := tick SysFree w in
  (set_live_bufs w1 (pred (live_bufs w1)), Val tt).

(** [open(path, O_RDONLY)] on the random device *)
Definition sys_open_rdonly (path : string) : M Z := fun w =>
  let w1 := tick SysDevOpen w in
  if env_devopen env (calls w SysDevOpen)
  then (set_dev_fds w1 (S (dev_fds w1)), Val DEV_FD)
  else (w1, Val (-1)).

(** [read(fd, buf, n)]: the count (or -1) and the buffer afterwards *)
Definition sys_read (fd : Z) (buf : list byte) (n : Z)
  : M (Z * list byte) := fun w =>
  let w1 := tick SysRead w in
  match env_read env (calls w SysRead) with
  | None => (w1, Val (-1, buf))
  | Some src =>
      let got := firstn (Nat.min (Z.to_nat n) (length buf)) src in
      (w1, Val (Z.of_nat (length got), got ++ skipn (length got) buf))
  end.

(** unsigned division; a zero divisor raises SIGFPE *)
Definition udiv (a b : Z) : M Z := fun w =>
  if b =? 0 then (w, Fault) else (w, Val (a / b)).

(** ** [getblocks] *)

Definition getblocks (opts : shred_opts) (len : Z) : M shred_opts :=
  (* 1 byte at a time *)
  let o1 := set_plan opts len 1 in
  o2 <- (if safe o1 =? 0 then
           rl <- sys_getrlimit ;;
           match rl with
           | None =>
               let o2 := set_safe o1 1 in
               (if verbose o2 =? 0 then ret tt else print_err) ;;
               ret (set_plan o2 len 1)
           | Some rlim_cur =>
               q <- udiv rlim_cur len ;;
               let o2 := set_plan o1 (to_size_t (q + 1)) (block_len o1) in
               bl <- udiv len (blocks o2) ;;
               let o3 := set_plan o2 (blocks o2) bl in
               (* file is small enough to allocate all at once *)
               if block_len o3 <=? 0
               then ret (set_plan o3 1 len)
               else ret o3
           end
         else ret o1) ;;
  (* OPT_DEBUG is defined, so the debug line is compiled in *)
  print_out ;;
  ret o2.

(** ** [readin] *)

(** the [fail:] label of [readin]: report, close the descriptor if there
    is one, and return [buf] *)
Definition readin_fail (fildes : Z) (buf : list byte)
  : M (option (list byte)) :=
  print_err ;;
  (if fildes >=? 0 then sys_close fildes else ret tt) ;;
  ret (Some buf).

Definition readin (path : string) (len : Z) : M (option (list byte)) :=
  (* allocate memory for the buffer *)
  mbuf <- sys_malloc len ;;
  match mbuf with
  | None => print_err ;; ret None
  | Some buf =>
      (* open the specified path *)
      fildes <- sys_open_rdonly path ;;
      if fildes <? 0 then readin_fail fildes buf
      else
        (* read X amount of bytes into the buffer from the path *)
        r <- sys_read fildes buf len ;;
        if fst r <? 0 then readin_fail fildes (snd r)
        else sys_close fildes ;; ret (Some (snd r))
  end.

(** ** [doshred] *)

(** how the body of a loop is left: by falling through to the next
    iteration, or by [goto fail] with the current value of [randbuf] *)
Inductive flow :=
| Next
| GotoFail (randbuf : option (list byte)).

(** the body of the inner loop: one block *)
Definition shred_block (opts : shred_opts) (fildes : Z) : M flow :=
  (* write null byte(s): the buffer argument is the null pointer *)
  sys_write fildes None (block_len opts) ;;
  (* get & write random data *)
  randbuf <- readin "/dev/urandom" (block_len opts) ;;
  match randbuf with
  | None => ret (GotoFail None)
  | Some buf =>
      sys_write fildes (Some buf) (block_len opts) ;;
      let scrubbed := memset0 buf (block_len opts) in
      sys_free ;;
      ret Next
  end.

(** [for (k = 0; k < opts->blocks; k++)], with [n] iterations to go *)
Fixpoint block_loop (n : nat) (opts : shred_opts) (fildes : Z) : M flow :=
  match n with
  | O => ret Next
  | S n' =>
      f <- shred_block opts fildes ;;
      match f with
      | Next => block_loop n' opts fildes
      | GotoFail rb => ret (GotoFail rb)
      end
  end.

(** the body of the outer loop: one pass over the file *)
Definition shred_pass (opts : shred_opts) (fildes : Z) : M flow :=
  (* reset file position to avoid increasing file size with each loop *)
  r <- sys_lseek fildes 0 SEEK_SET ;;
  (if r <? 0 then print_err else ret tt) ;;
  block_loop (Z.to_nat (blocks opts)) opts fildes.

(** [for (i = 0; i < loops; i++)], with [n] iterations to go *)
Fixpoint pass_loop (n : nat) (opts : shred_opts) (fildes : Z) : M flow :=
  match n with
  | O => ret Next
  | S n' =>
      f <- shred_pass opts fildes ;;
      match f with
      | Next => pass_loop n' opts fildes
      | GotoFail rb => ret (GotoFail rb)
      end
  end.

(** the loops of [doshred] and what follows them, for a plan already
    stored in [opts] *)
Definition doshred_loops (opts : shred_opts) (path : string) (fildes : Z)
  (loops : Z) : M Z :=
  f <- pass_loop (Z.to_nat loops) opts fildes ;;
  match f with
  | Next => ret 0
  | GotoFail randbuf =>
      print_err ;;
      match randbuf with
      | Some _ => sys_free
      | None => ret tt
      end ;;
      ret (-1)
  end.

(** [opts] is passed by pointer: the updated structure is returned with
    the result *)
Definition doshred (opts : shred_opts) (path : string) (fildes : Z)
  (loops : Z) (len : Z) : M (shred_opts * Z) :=
  opts' <- getblocks opts len ;;
  r <- doshred_loops opts' path fildes loops ;;
  ret (opts', r).

(** ** [getfildeslen] *)

Definition getfildeslen_fail : M Z := print_err ;; ret (-1).

Definition getfildeslen (path : string) (fildes : Z) : M Z :=
  (* get current position in the file *)
  pos <- sys_lseek fildes 0 SEEK_CUR ;;
  if pos <? 0 then getfildeslen_fail
  else
    (* seek to end of file to get the length *)
    len <- sys_lseek fildes 0 SEEK_END ;;
    if len <? 0 then getfildeslen_fail
    else
      (* reset file position *)
      r <- sys_lseek fildes pos SEEK_SET ;;
      if r <? 0 then getfildeslen_fail
      else ret len.

(** ** [fileshred] *)

Definition fileshred (opts : shred_opts) (path : string)
  : M (shred_opts * Z) :=
  (* attempt to open the path as a file *)
  fildes <- sys_open path ;;
  if fildes <? 0 then print_err ;; ret (opts, -1)
  else
    (* get the file size *)
    len <- getfildeslen path fildes ;;
    if len <? 0 then ret (opts, -1)
    else
      (* actually start "shredding" the file *)
      r <- doshred opts path fildes 3 (to_size_t len) ;;
      if snd r <? 0 then sys_close fildes ;; ret (fst r, -1)
      else sys_close fildes ;; ret (fst r, 0).

End Program.

(** ** Concrete environments *)

(** every call succeeds in full; the memory budget is [B]; fresh memory
    holds [xaa] bytes and the device delivers [x5a] bytes *)
Definition env_ok (B : Z) : Env :=
  mk_env (fun _ => true) (fun _ => true) (fun _ => WriteAll)
         (fun _ => Some B) (fun _ => true) (fun _ _ => xaa)
         (fun _ => true) (fun _ => Some (repeat x5a 64)).

(** [getrlimit] fails; everything else succeeds *)
Definition env_no_budget : Env :=
  mk_env (fun _ => true) (fun _ => true) (fun _ => WriteAll)
         (fun _ => None) (fun _ => true) (fun _ _ => xaa)
         (fun _ => true) (fun _ => Some (repeat x5a 64)).

(** the third allocation fails (number 2, counting from 0) *)
Definition env_third_malloc_fails : Env :=
  mk_env (fun _ => true) (fun _ => true) (fun _ => WriteAll)
         (fun _ => Some 4096) (fun i => negb (Nat.eqb i 2)) (fun _ _ => xaa)
         (fun _ => true) (fun _ => Some (repeat x5a 64)).

(** every write to the target and every seek fails *)
Definition env_target_fails : Env :=
  mk_env (fun _ => true) (fun _ => false) (fun _ => WriteError)
         (fun _ => Some 4096) (fun _ => true) (fun _ _ => xaa)
         (fun _ => true) (fun _ => Some (repeat x5a 64)).

(** the device has no byte to offer: every read is short *)
Definition env_short_read : Env :=
  mk_env (fun _ => true) (fun _ => true) (fun _ => WriteAll)
         (fun _ => Some 4096) (fun _ => true) (fun _ _ => xaa)
         (fun _ => true) (fun _ => Some []).

(** the first seek fails *)
Definition env_first_lseek_fails : Env :=
  mk_env (fun _ => true) (fun i => negb (Nat.eqb i 0)) (fun _ => WriteAll)
         (fun _ => Some 4096) (fun _ => true) (fun _ _ => xaa)
         (fun _ => true) (fun _ => Some (repeat x5a 64)).

(** a world in which the target is open on descriptor [TARGET_FD] *)
Definition open_world (d : list byte) : World :=
  set_tfd (init_world d) (Some TARGET_FD).

(** ** Predicates used in the statements *)

(** the descriptors and the heap are as before *)
Definition same_resources (w w' : World) : Prop :=
  tfd w' = tfd w /\ dev_fds w' = dev_fds w /\ live_bufs w' = live_bufs w.

(** the target file and its offset are as before *)
Definition same_file (w w' : World) : Prop :=
  file_data w' = file_data w /\ file_pos w' = file_pos w.

(** [n] more bytes written from the current offset stay inside the file *)
Definition fits (w : World) (n : nat) : Prop :=
  (file_pos w + n <= length (file_data w))%nat.

(** the file keeps its length and the offset moves forward by at most
    [n] bytes *)
Definition length_kept (w w' : World) (n : nat) : Prop :=
  length (file_data w') = length (file_data w) /\
  (file_pos w' <= file_pos w + n)%nat.

(** the allocations number [c], [c+1], ..., [c+n-1] succeed *)
Definition mallocs_ok (env : Env) (c n : nat) : Prop :=
  forall i, (i < n)%nat -> env_malloc env (c + i) = true.

(** the first allocation to fail, counting from number [c], is number
    [c + j] *)
Definition first_malloc_failure (env : Env) (c j : nat) : Prop :=
  mallocs_ok env c j /\ env_malloc env (c + j) = false.

(** a loop that started in [w] with room for [n] blocks ran to its end
    in [w']: [n] allocations, [2 n] write calls *)
Definition ran_through (env : Env) (w w' : World) (n : nat) : Prop :=
  mallocs_ok env (calls w SysMalloc) n /\
  calls w' SysMalloc = (calls w SysMalloc + n)%nat /\
  calls w' SysWrite = (calls w SysWrite + 2 * n)%nat.

(** a loop that started in [w] stopped in [w'] at its block number [j]:
    the failed allocation is the last call made, after the null write of
    that block *)
Definition stopped_at (env : Env) (w w' : World) (j : nat) : Prop :=
  first_malloc_failure env (calls w SysMalloc) j /\
  calls w' SysMalloc = (calls w SysMalloc + j + 1)%nat /\
  calls w' SysWrite = (calls w SysWrite + 2 * j + 1)%nat.

(** ** The dispatcher: [exists], [getfiletype], [dirshred], [shred], [main] *)

(** the values of the anonymous [enum] of file types *)
Definition TYPE_FILE : Z := 0.
Definition TYPE_DIR : Z := 1.
Definition TYPE_SYM : Z := 2.
Definition TYPE_UNK : Z := 3.

(** what [stat] reports in [st_mode], as far as [S_ISREG] and [S_ISDIR]
    can tell *)
Inductive st_mode :=
| S_IFREG       (* regular file *)
| S_IFDIR       (* directory *)
| S_IFOTHER.    (* anything else *)

(** the answers of the file-system queries, by path *)
Record FsEnv := mk_fs {
  fs_access : string -> bool;            (* access(path, F_OK) succeeds *)
  fs_stat   : string -> option st_mode   (* None: stat fails *)
}.

Section Dispatcher.

Variable env : Env.
Variable fs : FsEnv.

(** [exists]: 1 when the path exists, 0 (after a diagnostic) otherwise *)
Definition path_exists (path : string) : M Z :=
  (* make sure specified path exists on the file system *)
  if fs_access fs path then ret 1
  else print_err ;; ret 0.

Definition getfiletype (path : string) : M Z :=
  match fs_stat fs path with
  | None => print_err ;; ret (-1)
  | Some S_IFREG => ret TYPE_FILE      (* regular file *)
  | Some S_IFDIR => ret TYPE_DIR       (* directory *)
  | Some S_IFOTHER => ret TYPE_UNK
  end.

Definition dirshred (opts : shred_opts) (path : string) : M Z :=
  if recursive opts =? 0 then print_err ;; ret (-1)
  else ret 0.

(** [shred]; a null pointer is [None].  The options structure after the
    call is returned with the result. *)
Definition shred (opts : option shred_opts) (path : option string)
  : M (option shred_opts * Z) :=
  match path, opts with
  | Some p, Some o =>
      e <- path_exists p ;;
      if e =? 0 then ret (opts, -1)
      else
        ftype <- getfiletype p ;;
        if ftype =? TYPE_FILE then
          r <- fileshred env o p ;; ret (Some (fst r), snd r)
        else if ftype =? TYPE_DIR then
          r <- dirshred o p ;; ret (opts, r)
        else
          print_err ;; ret (opts, -1)
  | _, _ => ret (opts, -1)
  end.

(** the loop of [main] over the arguments after [argv[0]]; the one
    options structure is handed to every call *)
Fixpoint shred_args (opts : shred_opts) (args : list string)
  : M shred_opts :=
  match args with
  | [] => ret opts
  | a :: rest =>
      r <- shred (Some opts) (Some a) ;;
      shred_args (match fst r with Some o => o | None => opts end) rest
  end.

(** [main]; [b] and [bl] are the values found in the two fields that
    [main] does not initialise.  Every regular-file path names the one
    file of the world. *)
Definition main (b bl : Z) (args : list string) : M Z :=
  shred_args (default_opts b bl) args ;;
  ret 0.

End Dispatcher.

(** ** What the device delivers *)

(** the bytes the [i]-th read has to offer *)
Definition read_bytes (env : Env) (i : nat) : list byte :=
  match env_read env i with
  | Some s => s
  | None => []
  end.

(** the bytes written by [n] blocks of [bl] bytes whose reads are number
    [c], [c+1], ... *)
Definition blocks_bytes (env : Env) (bl c n : nat) : list byte :=
  flat_map (fun i => firstn bl (read_bytes env i)) (seq c n).

(** every allocation, every open of the device and every write succeeds
    in full, and every read delivers at least [bl] bytes *)
Definition device_ok (env : Env) (bl : nat) : Prop :=
  (forall i, env_malloc env i = true) /\
  (forall i, env_devopen env i = true) /\
  (forall i, env_write env i = WriteAll) /\
  (forall i, exists s, env_read env i = Some s /\ (bl <= length s)%nat).

(** writes of [n] more bytes from the current offset stay below offset
    [K], which is inside the file *)
Definition room (K : nat) (w : World) (n : nat) : Prop :=
  (file_pos w + n <= K)%nat /\ (K <= length (file_data w))%nat.

(** the file keeps its length and its bytes from offset [K] on, and the
    offset moves forward by at most [n] bytes *)
Definition tail_kept (K : nat) (w w' : World) (n : nat) : Prop :=
  length (file_data w') = length (file_data w) /\
  (file_pos w' <= file_pos w + n)%nat /\
  skipn K (file_data w') = skipn K (file_data w).

(** no path of the list exists *)
Definition none_exists (fs : FsEnv) (args : list string) : Prop :=
  Forall (fun p => fs_access fs p = false) args.

(** a file system with one regular file, ["f"], and one directory, ["d"] *)
Definition fs_two : FsEnv :=
  mk_fs (fun p => orb (String.eqb p "f") (String.eqb p "d"))
        (fun p => if String.eqb p "f" then Some S_IFREG
                  else if String.eqb p "d" then Some S_IFDIR
                  else None).

(** the device delivers the bytes [x01], [x02], [x03], ... in turn, four
    at a time; the memory budget is 5 *)
Definition env_counting : Env :=
  mk_env (fun _ => true) (fun _ => true) (fun _ => WriteAll)
         (fun _ => Some 5) (fun _ => true) (fun _ _ => xaa)
         (fun _ => true)
         (fun i => Some (repeat (match i with
                                 | 0 => x01 | 1 => x02 | 2 => x03
                                 | 3 => x04 | 4 => x05 | 5 => x06
                                 | _ => x07
                                 end)%nat 4)).

(** the calls that the loops of [doshred] and the length probe can make;
    opening the target, [getrlimit] and printing to the standard output
    are not among them *)
Definition loop_call (k : syscall) : bool :=
  match k with
  | SysOpen | SysGetrlimit | SysStdout => false
  | _ => true
  end.

(** what [shred] answers for a path that is not an existing regular file *)
Definition rejection (fs : FsEnv) (opts : shred_opts) (p : string) : Z :=
  if fs_access fs p then
    match fs_stat fs p with
    | Some S_IFDIR => if recursive opts =? 0 then -1 else 0
    | _ => -1
    end
  else -1.

(** no path of the list is an existing regular file *)
Definition no_regular (fs : FsEnv) (args : list string) : Prop :=
  Forall (fun p => fs_access fs p = false \/ fs_stat fs p <> Some S_IFREG)
         args.

(** the random device cannot be opened; everything else succeeds *)
Definition env_no_device : Env :=
  mk_env (fun _ => true) (fun _ => true) (fun _ => WriteAll)
         (fun _ => Some 4096) (fun _ => true) (fun _ _ => xaa)
         (fun _ => false) (fun _ => Some (repeat x5a 64)).

(** the buffer that the [readin] call made in world [w] returns for [n]
    bytes when its allocation succeeds: the bytes read, then what
    [malloc] left; all of what [malloc] left after a failed open or
    read *)
Definition readin_bytes (env : Env) (n : nat) (w : World) : list byte :=
  let fresh := map (env_fresh env (calls w SysMalloc)) (seq 0 n) in
  if env_devopen env (calls w SysDevOpen)
  then match env_read env (calls w SysRead) with
       | Some src => firstn n src ++ skipn (Nat.min n (length src)) fresh
       | None => fresh
       end
  else fresh.



(** * Properties *)

(** case analysis on the innermost scrutinee of the goal *)
Ltac break_inner :=
  match goal with
  | |- context [match ?x with _ => _ end] =>
      lazymatch x with
      | context [match _ with _ => _ end] => fail
      | _ => destruct x eqn:?
      end
  end.

(** ** The block planner, [getblocks] *)

Lemma to_size_t_range x : 0 <= to_size_t x < SIZE_MOD.
Proof. unfold to_size_t. apply Z.mod_pos_bound. reflexivity. Qed.

Lemma to_size_t_le x : 0 <= x -> to_size_t x <= x.
Proof. intros. unfold to_size_t. apply Z.mod_le; [assumption | reflexivity]. Qed.

(** C7. When [safe] is set or [getrlimit] fails, [getblocks] returns (it
    raises no fault) and the plan is [blocks = len], [block_len = 1]; the
    target file is not touched. *)
Theorem getblocks_safe_plan (env : Env) (opts : shred_opts) (len : Z)
  (w : World) :
  safe opts <> 0 \/ env_rlimit env (calls w SysGetrlimit) = None ->
  exists w' opts',
    getblocks env opts len w = (w', Val opts') /\
    blocks opts' = len /\ block_len opts' = 1 /\
    file_data w' = file_data w /\ file_pos w' = file_pos w.
Proof.
  intros H. unfold getblocks, bind, sys_getrlimit, print_out, print_err, ret.
  cbn [safe set_plan].
  destruct (safe opts =? 0) eqn:Es.
  - apply Z.eqb_eq in Es. destruct H as [H | H]; [contradiction |].
    rewrite H. cbn [option_map verbose set_safe set_plan].
    destruct (verbose opts =? 0); cbn; eexists; eexists;
      (split; [reflexivity |]); cbn; auto.
  - eexists; eexists. split; [reflexivity |]. cbn. auto.
Qed.

Lemma getblocks_safe_plan_witness :
  (safe (set_safe (default_opts 0 0) 1) <> 0 \/
   env_rlimit (env_ok 4096) (calls (init_world [x41; x42; x43]) SysGetrlimit)
     = None) /\
  exists w' opts',
    getblocks (env_ok 4096) (set_safe (default_opts 0 0) 1) 3
      (init_world [x41; x42; x43]) = (w', Val opts') /\
    blocks opts' = 3 /\ block_len opts' = 1 /\
    file_data w' = file_data (init_world [x41; x42; x43]) /\
    file_pos w' = file_pos (init_world [x41; x42; x43]).
Proof.
  split.
  - left. simpl. discriminate.
  - apply (getblocks_safe_plan (env_ok 4096) (set_safe (default_opts 0 0) 1) 3
             (init_world [x41; x42; x43])).
    left. simpl. discriminate.
Defined.

(** C5. On an empty file, with [safe] clear and a memory budget [B]
    obtained from [getrlimit], [getblocks] divides [B] by the length 0:
    the run ends in a fault and no plan is produced.  So does the run of
    [fileshred] on an empty file with the options of [main]. *)
Theorem getblocks_empty_file_faults (B b bl : Z) (w : World) :
  snd (getblocks (env_ok B) (default_opts b bl) 0 w) = Fault /\
  snd (fileshred (env_ok B) (default_opts b bl) "f" (init_world [])) = Fault.
Proof. split; reflexivity. Qed.

(** C8. With the budget [2^64 - 1] and a file of one byte the block count
    [B / n + 1] wraps to 0 and the division of the length by it faults. *)
Theorem getblocks_block_count_wraps (b bl : Z) (w : World) :
  snd (getblocks (env_ok (SIZE_MOD - 1)) (default_opts b bl) 1 w) = Fault.
Proof. reflexivity. Qed.

(** away from the two faults, the plan has at least one block of at least
    one byte *)
Lemma getblocks_plan_positive (env : Env) (opts : shred_opts) (n B : Z)
  (w : World) :
  1 <= n -> 0 <= B < SIZE_MOD - 1 ->
  safe opts = 0 -> env_rlimit env (calls w SysGetrlimit) = Some B ->
  exists w' opts',
    getblocks env opts n w = (w', Val opts') /\
    1 <= blocks opts' /\ 1 <= block_len opts'.
Proof.
  intros Hn HB Hs Hr.
  unfold getblocks, bind, sys_getrlimit, print_out, ret, udiv.
  cbn [safe set_plan]. rewrite Hs. change (0 =? 0) with true.
  cbv beta iota. rewrite Hr. cbn [option_map].
  assert (Eb : to_size_t B = B)
    by (unfold to_size_t; apply Z.mod_small; lia).
  rewrite Eb.
  destruct (n =? 0) eqn:En; [apply Z.eqb_eq in En; lia |].
  cbn [blocks block_len set_plan].
  assert (Hq : 0 <= B / n <= B).
  { split; [apply Z.div_pos; lia |].
    apply Z.div_le_upper_bound; [lia | nia]. }
  assert (Eq : to_size_t (B / n + 1) = B / n + 1)
    by (unfold to_size_t; apply Z.mod_small; lia).
  rewrite Eq.
  destruct (B / n + 1 =? 0) eqn:Ez; [apply Z.eqb_eq in Ez; lia |].
  assert (0 <= n / (B / n + 1)) by (apply Z.div_pos; lia).
  destruct (n / (B / n + 1) <=? 0) eqn:El.
  - eexists; eexists. split; [reflexivity |]. cbn. lia.
  - apply Z.leb_gt in El. eexists; eexists. split; [reflexivity |].
    cbn. lia.
Qed.

(** a plan never covers more than the length it was computed from *)
Lemma getblocks_plan_bound (env : Env) (opts : shred_opts) (len : Z)
  (w w' : World) (opts' : shred_opts) :
  0 <= len ->
  getblocks env opts len w = (w', Val opts') ->
  0 <= blocks opts' /\ 0 <= block_len opts' /\
  blocks opts' * block_len opts' <= len.
Proof.
  intros Hl. unfold getblocks, bind, sys_getrlimit, print_out, print_err,
    ret, udiv.
  cbn [safe set_plan].
  destruct (safe opts =? 0).
  - destruct (env_rlimit env (calls w SysGetrlimit)) as [B |];
      cbn [option_map].
    + destruct (len =? 0); [discriminate |].
      cbn [blocks block_len set_plan].
      pose proof (to_size_t_range (to_size_t B / len + 1)) as Hr.
      destruct (to_size_t (to_size_t B / len + 1) =? 0) eqn:Ez;
        [discriminate |].
      apply Z.eqb_neq in Ez.
      destruct (len / to_size_t (to_size_t B / len + 1) <=? 0) eqn:El;
        intros E; inversion E; subst; cbn [blocks block_len set_plan].
      * lia.
      * apply Z.leb_gt in El.
        repeat split; try lia. apply Z.mul_div_le. lia.
    + cbn [verbose set_safe set_plan].
      destruct (verbose opts =? 0); cbn; intros E; inversion E; subst;
        cbn [blocks block_len set_plan]; lia.
  - cbn. intros E; inversion E; subst; cbn [blocks block_len set_plan]. lia.
Qed.

(** the planner leaves the target, the heap and the descriptors alone *)
Lemma getblocks_world (env : Env) (opts : shred_opts) (len : Z)
  (w : World) :
  let w' := fst (getblocks env opts len w) in
  file_data w' = file_data w /\ file_pos w' = file_pos w /\
  tfd w' = tfd w /\ dev_fds w' = dev_fds w /\ live_bufs w' = live_bufs w /\
  calls w' SysMalloc = calls w SysMalloc /\
  calls w' SysWrite = calls w SysWrite /\
  calls w' SysLseek = calls w SysLseek.
Proof.
  unfold getblocks, bind, sys_getrlimit, print_out, print_err, ret, udiv.
  cbn [safe set_plan verbose set_safe blocks block_len].
  destruct (safe opts =? 0).
  - destruct (env_rlimit env (calls w SysGetrlimit)) as [B |];
      cbn [option_map].
    + destruct (len =? 0); [cbn; repeat split; reflexivity |].
      destruct (to_size_t (to_size_t B / len + 1) =? 0);
        [cbn; repeat split; reflexivity |].
      destruct (len / to_size_t (to_size_t B / len + 1) <=? 0);
        cbn; repeat split; reflexivity.
    + destruct (verbose opts =? 0); cbn; repeat split; reflexivity.
  - cbn; repeat split; reflexivity.
Qed.



(** ** Kernel calls *)

Lemma write_at_length (d : list byte) (p : nat) (bs : list byte) :
  (p + length bs <= length d)%nat ->
  length (write_at d p bs) = length d.
Proof.
  intros H. unfold write_at. destruct bs as [| b bs']; [reflexivity |].
  remember (b :: bs') as bs.
  rewrite !length_app, length_firstn, repeat_length, length_skipn. lia.
Qed.

Lemma write_count_le (a : write_answer) (n k : nat) :
  write_count a n = Some k -> (k <= n)%nat.
Proof.
  destruct a; cbn; intros E; inversion E; subst; lia.
Qed.

(** [write] always returns; it leaves descriptors and heap alone, counts
    as one call, and keeps the length of the file when the bytes asked
    for fit inside it *)
Lemma sys_write_spec (env : Env) (fd : Z) (buf : option (list byte))
  (n : Z) (w : World) :
  exists w' r,
    sys_write env fd buf n w = (w', Val r) /\
    same_resources w w' /\
    calls w' = bump SysWrite (calls w) /\
    (fits w (Z.to_nat n) -> length_kept w w' (Z.to_nat n)).
Proof.
  unfold sys_write, same_resources, fits, length_kept. cbv zeta.
  destruct (negb (is_tfd w fd)); [| destruct (n =? 0); [| destruct buf as [bs |];
    [destruct (write_count (env_write env (calls w SysWrite)) (Z.to_nat n))
       as [k |] eqn:Ek |]]];
    eexists; eexists; (split; [reflexivity |]); cbn;
    (split; [auto |]); (split; [reflexivity |]); intros Hf; try lia.
  apply write_count_le in Ek.
  pose proof (firstn_le_length k bs) as H1.
  assert (length (firstn k bs) <= k)%nat
    by (rewrite length_firstn; lia).
  split; [apply write_at_length |]; lia.
Qed.

(** a write from the null pointer never changes the file or the offset *)
Lemma sys_write_null (env : Env) (fd : Z) (n : Z) (w : World) :
  same_file w (fst (sys_write env fd None n w)).
Proof.
  unfold sys_write, same_file. cbv zeta.
  destruct (negb (is_tfd w fd)); [| destruct (n =? 0)]; cbn; auto.
Qed.

(** a successful seek to offset 0 on the target puts the offset at 0; no
    seek changes the file *)
Lemma sys_lseek_spec (env : Env) (fd off : Z) (wh : whence) (w : World) :
  exists w' r,
    sys_lseek env fd off wh w = (w', Val r) /\
    same_resources w w' /\
    file_data w' = file_data w /\
    calls w' = bump SysLseek (calls w) /\
    (r < 0 -> file_pos w' = file_pos w) /\
    (0 <= r -> file_pos w' = Z.to_nat r) /\
    (r < 0 \/ tfd w = Some fd /\ env_lseek env (calls w SysLseek) = true /\
              r = match wh with
                  | SEEK_SET => 0
                  | SEEK_CUR => Z.of_nat (file_pos w)
                  | SEEK_END => Z.of_nat (length (file_data w))
                  end + off) /\
    (tfd w = Some fd -> env_lseek env (calls w SysLseek) = true ->
     wh = SEEK_SET -> off = 0 -> r = 0).
Proof.
  unfold sys_lseek, same_resources, is_tfd. cbv zeta.
  destruct (tfd w) as [f |] eqn:Et.
  - destruct (f =? fd) eqn:Ef.
    + apply Z.eqb_eq in Ef. subst f.
      destruct (env_lseek env (calls w SysLseek)) eqn:El; cbn [andb].
      * destruct (_ <? 0) eqn:En.
        -- eexists; eexists; (split; [reflexivity |]); cbn.
           repeat split; auto; try lia.
           intros _ _ -> ->. cbn in En. discriminate En.
        -- apply Z.ltb_ge in En.
           eexists; eexists; (split; [reflexivity |]); cbn.
           repeat split; auto; try lia.
           intros _ _ -> ->. reflexivity.
      * eexists; eexists; (split; [reflexivity |]); cbn.
        repeat split; auto; try lia; try discriminate.
    + apply Z.eqb_neq in Ef. cbn [andb].
      eexists; eexists; (split; [reflexivity |]); cbn.
      repeat split; auto; try lia; try congruence.
  - cbn [andb].
    eexists; eexists; (split; [reflexivity |]); cbn.
    repeat split; auto; try lia; try discriminate.
Qed.

(** ** The random source, [readin] *)

(** [readin] always returns.  It returns the null pointer exactly when
    [malloc] fails; a device that cannot be opened, a failed read and a
    short read all give back the allocated buffer.  The target is not
    touched and no device descriptor stays open. *)
Lemma readin_spec (env : Env) (path : string) (n : Z) (w : World) :
  exists w' rb,
    readin env path n w = (w', Val rb) /\
    same_file w w' /\
    tfd w' = tfd w /\ dev_fds w' = dev_fds w /\
    calls w' SysMalloc = S (calls w SysMalloc) /\
    calls w' SysWrite = calls w SysWrite /\
    calls w' SysLseek = calls w SysLseek /\
    if env_malloc env (calls w SysMalloc)
    then (exists buf, rb = Some buf) /\ live_bufs w' = S (live_bufs w)
    else rb = None /\ live_bufs w' = live_bufs w.
Proof.
  unfold readin, readin_fail, bind, ret, sys_malloc, sys_open_rdonly,
    sys_read, sys_close, print_err, same_file, is_tfd.
  cbv zeta. cbn.
  repeat (break_inner; cbn in *; try discriminate);
    eexists; eexists; (split; [reflexivity |]); cbn;
    repeat split; eauto.
Qed.

(** ** One block, [shred_block] *)

(** a block always completes.  It leaves by [goto fail] exactly when
    [malloc] fails, and then after one write call; otherwise it makes two
    write calls.  It frees what it allocates, and keeps the length of the
    file when a block fits between the offset and the end. *)
Lemma shred_block_spec (env : Env) (opts : shred_opts) (fd : Z)
  (w : World) :
  exists w' f,
    shred_block env opts fd w = (w', Val f) /\
    same_resources w w' /\
    calls w' SysMalloc = S (calls w SysMalloc) /\
    calls w' SysLseek = calls w SysLseek /\
    (if env_malloc env (calls w SysMalloc)
     then f = Next /\ calls w' SysWrite = S (S (calls w SysWrite))
     else f = GotoFail None /\ calls w' SysWrite = S (calls w SysWrite)) /\
    (fits w (Z.to_nat (block_len opts)) ->
     length_kept w w' (Z.to_nat (block_len opts))).
Proof.
  unfold shred_block, bind.
  pose proof (sys_write_null env fd (block_len opts) w) as [D1 P1].
  destruct (sys_write_spec env fd None (block_len opts) w)
    as (w1 & r1 & E1 & (T1 & V1 & H1) & C1 & _).
  rewrite E1 in *. cbn [fst] in D1, P1.
  destruct (readin_spec env "/dev/urandom" (block_len opts) w1)
    as (w2 & rb & E2 & [D2 P2] & T2 & V2 & M2 & W2 & S2 & A2).
  rewrite E2.
  assert (Cm : calls w1 SysMalloc = calls w SysMalloc)
    by (rewrite C1; reflexivity).
  assert (Cw : calls w1 SysWrite = S (calls w SysWrite))
    by (rewrite C1; reflexivity).
  assert (Cl : calls w1 SysLseek = calls w SysLseek)
    by (rewrite C1; reflexivity).
  rewrite Cm in A2.
  destruct (env_malloc env (calls w SysMalloc)).
  - destruct A2 as [[buf ->] H2].
    destruct (sys_write_spec env fd (Some buf) (block_len opts) w2)
      as (w3 & r3 & E3 & (T3 & V3 & H3) & C3 & L3).
    rewrite E3. unfold sys_free, ret. cbn.
    eexists; eexists. split; [reflexivity |]. cbn.
    unfold same_resources, fits, length_kept in *.
    rewrite C3. cbn.
    repeat split; try congruence; try lia;
      (assert (F2 : (file_pos w2 + Z.to_nat (block_len opts)
                     <= length (file_data w2))%nat)
         by (rewrite P2, P1, D2, D1; assumption));
      apply L3 in F2; destruct F2 as [F2 F3];
      rewrite ?D2, ?D1, ?P2, ?P1 in *; assumption.
  - destruct A2 as [-> H2]. unfold ret.
    eexists; eexists. split; [reflexivity |].
    unfold same_resources, fits, length_kept in *.
    repeat split; try congruence; try lia.
Qed.

(** ** The inner loop, [block_loop] *)

Lemma first_malloc_failure_unique (env : Env) (c j j' : nat) :
  first_malloc_failure env c j -> first_malloc_failure env c j' -> j = j'.
Proof.
  intros [A B] [A' B'].
  destruct (Nat.lt_trichotomy j j') as [H | [H | H]]; [| assumption |].
  - rewrite (A' j H) in B. discriminate.
  - rewrite (A j' H) in B'. discriminate.
Qed.

Lemma block_loop_spec (env : Env) (opts : shred_opts) (fd : Z) (n : nat) :
  forall w,
  exists w' f,
    block_loop env n opts fd w = (w', Val f) /\
    same_resources w w' /\
    calls w' SysLseek = calls w SysLseek /\
    (fits w (n * Z.to_nat (block_len opts)) ->
     length_kept w w' (n * Z.to_nat (block_len opts))) /\
    (f = Next /\ ran_through env w w' n \/
     exists j, (j < n)%nat /\ f = GotoFail None /\ stopped_at env w w' j).
Proof.
  set (bl := Z.to_nat (block_len opts)).
  induction n as [| n IH]; intros w.
  - exists w, Next. cbn.
    unfold same_resources, fits, length_kept, ran_through, mallocs_ok.
    repeat split; auto; try lia. left. repeat split; auto; lia.
  - cbn [block_loop]. unfold bind.
    destruct (shred_block_spec env opts fd w)
      as (w1 & f1 & E1 & (T1 & V1 & H1) & M1 & S1 & A1 & L1).
    fold bl in L1. rewrite E1.
    assert (K1 : fits w (S n * bl) ->
                 length_kept w w1 bl /\ fits w1 (n * bl)).
    { unfold fits, length_kept in *. cbn [Nat.mul]. intros Hf.
      assert (Hf1 : (file_pos w + bl <= length (file_data w))%nat) by lia.
      specialize (L1 Hf1). destruct L1 as [D1 P1]. lia. }
    destruct (env_malloc env (calls w SysMalloc)) eqn:Em.
    + destruct A1 as [-> W1].
      destruct (IH w1) as (w2 & f2 & E2 & (T2 & V2 & H2) & S2 & L2 & A2).
      rewrite E2. exists w2, f2. split; [reflexivity |].
      split; [unfold same_resources; repeat split; congruence |].
      split; [congruence |].
      split.
      * intros Hf. destruct (K1 Hf) as [[D1 P1] F1].
        destruct (L2 F1) as [D2 P2].
        unfold length_kept. cbn [Nat.mul]. split; lia.
      * destruct A2
          as [[-> (Ok & Mc & Wc)] | (j & Hj & -> & (Ok & Bad) & Mc & Wc)].
        -- left. split; [reflexivity |].
           unfold ran_through, mallocs_ok in *. repeat split; try lia.
           intros i Hi. destruct i as [| i].
           ++ rewrite Nat.add_0_r. assumption.
           ++ specialize (Ok i). rewrite M1 in Ok.
              replace (calls w SysMalloc + S i)%nat
                with (S (calls w SysMalloc) + i)%nat by lia.
              apply Ok. lia.
        -- right. exists (S j). split; [lia |]. split; [reflexivity |].
           unfold stopped_at, first_malloc_failure, mallocs_ok in *.
           rewrite M1 in *.
           repeat split; try lia.
           ++ intros i Hi. destruct i as [| i].
              ** rewrite Nat.add_0_r. assumption.
              ** replace (calls w SysMalloc + S i)%nat
                   with (S (calls w SysMalloc) + i)%nat by lia.
                 apply Ok. lia.
           ++ replace (calls w SysMalloc + S j)%nat
                with (S (calls w SysMalloc) + j)%nat by lia.
              assumption.
    + destruct A1 as [-> W1]. exists w1, (GotoFail None).
      split; [reflexivity |].
      split; [unfold same_resources; repeat split; congruence |].
      split; [congruence |].
      split.
      * intros Hf. destruct (K1 Hf) as [[D1 P1] F1].
        unfold length_kept. cbn [Nat.mul]. split; lia.
      * right. exists 0%nat. split; [lia |]. split; [reflexivity |].
        unfold stopped_at, first_malloc_failure, mallocs_ok.
        rewrite Nat.add_0_r. repeat split; try lia. assumption.
Qed.

(** ** One pass and the outer loop *)

Lemma mallocs_ok_app (env : Env) (c n m : nat) :
  mallocs_ok env c n -> mallocs_ok env (c + n) m -> mallocs_ok env c (n + m).
Proof.
  intros A B i Hi. destruct (Nat.lt_ge_cases i n) as [H | H].
  - apply A. assumption.
  - replace (c + i)%nat with (c + n + (i - n))%nat by lia. apply B. lia.
Qed.

Lemma ran_through_trans (env : Env) (w w1 w2 : World) (n m : nat) :
  ran_through env w w1 n -> ran_through env w1 w2 m ->
  ran_through env w w2 (n + m).
Proof.
  intros (A & Mc & Wc) (A' & Mc' & Wc'). rewrite Mc in *.
  repeat split; try lia. apply mallocs_ok_app; assumption.
Qed.

Lemma ran_then_stopped (env : Env) (w w1 w2 : World) (n j : nat) :
  ran_through env w w1 n -> stopped_at env w1 w2 j ->
  stopped_at env w w2 (n + j).
Proof.
  intros (A & Mc & Wc) ((A' & B') & Mc' & Wc'). rewrite Mc in *.
  repeat split; try lia.
  - apply mallocs_ok_app; assumption.
  - rewrite Nat.add_assoc. assumption.
Qed.

Lemma shred_pass_spec (env : Env) (opts : shred_opts) (fd : Z) (w : World) :
  exists w' f,
    shred_pass env opts fd w = (w', Val f) /\
    same_resources w w' /\
    calls w' SysLseek = S (calls w SysLseek) /\
    (tfd w = Some fd -> env_lseek env (calls w SysLseek) = true ->
     (Z.to_nat (blocks opts) * Z.to_nat (block_len opts)
      <= length (file_data w))%nat ->
     length (file_data w') = length (file_data w)) /\
    (f = Next /\ ran_through env w w' (Z.to_nat (blocks opts)) \/
     exists j, (j < Z.to_nat (blocks opts))%nat /\ f = GotoFail None /\
               stopped_at env w w' j).
Proof.
  unfold shred_pass, bind.
  destruct (sys_lseek_spec env fd 0 SEEK_SET w)
    as (w1 & r & E1 & (T1 & V1 & H1) & D1 & C1 & Pn & Pp & _ & Z1).
  rewrite E1.
  assert (exists w1',
            (if r <? 0 then print_err else ret tt) w1 = (w1', Val tt) /\
            file_data w1' = file_data w1 /\ file_pos w1' = file_pos w1 /\
            same_resources w1 w1' /\
            calls w1' SysLseek = calls w1 SysLseek /\
            calls w1' SysMalloc = calls w1 SysMalloc /\
            calls w1' SysWrite = calls w1 SysWrite)
    as (w1' & E1' & D1' & P1' & (T1' & V1' & H1') & Cl & Cm & Cw).
  { destruct (r <? 0); eexists; (split; [reflexivity |]);
      unfold same_resources; cbn; repeat split; reflexivity. }
  rewrite E1'.
  destruct (block_loop_spec env opts fd (Z.to_nat (blocks opts)) w1')
    as (w2 & f & E2 & (T2 & V2 & H2) & S2 & L2 & A2).
  rewrite E2. exists w2, f. split; [reflexivity |].
  assert (Em : calls w1' SysMalloc = calls w SysMalloc)
    by (rewrite Cm, C1; reflexivity).
  assert (Ew : calls w1' SysWrite = calls w SysWrite)
    by (rewrite Cw, C1; reflexivity).
  split; [unfold same_resources; repeat split; congruence |].
  split; [rewrite S2, Cl, C1; reflexivity |].
  split.
  - intros Ht Hl Hb. specialize (Z1 Ht Hl eq_refl eq_refl). subst r.
    assert (P0 : file_pos w1' = 0%nat)
      by (rewrite P1'; rewrite Pp by lia; reflexivity).
    assert (F : fits w1' (Z.to_nat (blocks opts)
                          * Z.to_nat (block_len opts))).
    { unfold fits. rewrite P0, D1', D1. assumption. }
    destruct (L2 F) as [D2 _]. congruence.
  - unfold ran_through, stopped_at, first_malloc_failure in *.
    rewrite Em, Ew in A2. exact A2.
Qed.

Lemma pass_loop_spec (env : Env) (opts : shred_opts) (fd : Z) (n : nat) :
  forall w,
  exists w' f,
    pass_loop env n opts fd w = (w', Val f) /\
    same_resources w w' /\
    (tfd w = Some fd -> (forall i, env_lseek env i = true) ->
     (Z.to_nat (blocks opts) * Z.to_nat (block_len opts)
      <= length (file_data w))%nat ->
     length (file_data w') = length (file_data w)) /\
    (f = Next /\ ran_through env w w' (n * Z.to_nat (blocks opts)) /\
     calls w' SysLseek = (calls w SysLseek + n)%nat \/
     exists j, (j < n * Z.to_nat (blocks opts))%nat /\ f = GotoFail None /\
               stopped_at env w w' j).
Proof.
  induction n as [| n IH]; intros w.
  - exists w, Next. cbn. unfold same_resources, ran_through, mallocs_ok.
    repeat split; auto. left. repeat split; auto; lia.
  - cbn [pass_loop]. unfold bind.
    destruct (shred_pass_spec env opts fd w)
      as (w1 & f1 & E1 & (T1 & V1 & H1) & S1 & L1 & A1).
    rewrite E1.
    destruct A1 as [[-> R1] | (j & Hj & -> & St)].
    + destruct (IH w1) as (w2 & f2 & E2 & (T2 & V2 & H2) & L2 & A2).
      rewrite E2. exists w2, f2. split; [reflexivity |].
      split; [unfold same_resources; repeat split; congruence |].
      split.
      * intros Ht Hl Hb.
        rewrite L2; [apply L1; auto | congruence | assumption |].
        rewrite L1; auto.
      * cbn [Nat.mul].
        destruct A2 as [(-> & R2 & S2) | (j & Hj & -> & St)].
        -- left. split; [reflexivity |].
           split; [eapply ran_through_trans; eassumption | lia].
        -- right. exists (Z.to_nat (blocks opts) + j)%nat.
           split; [lia |]. split; [reflexivity |].
           eapply ran_then_stopped; eassumption.
    + exists w1, (GotoFail None). split; [reflexivity |].
      split; [unfold same_resources; repeat split; congruence |].
      split; [intros; apply L1; auto |].
      right. exists j. cbn [Nat.mul]. split; [lia |]. auto.
Qed.

(** ** [doshred] *)

Lemma doshred_loops_spec (env : Env) (opts : shred_opts) (path : string)
  (fd : Z) (loops : Z) (w : World) :
  exists w' r,
    doshred_loops env opts path fd loops w = (w', Val r) /\
    same_resources w w' /\
    (tfd w = Some fd -> (forall i, env_lseek env i = true) ->
     (Z.to_nat (blocks opts) * Z.to_nat (block_len opts)
      <= length (file_data w))%nat ->
     length (file_data w') = length (file_data w)) /\
    (r = 0 /\
     ran_through env w w' (Z.to_nat loops * Z.to_nat (blocks opts)) /\
     calls w' SysLseek = (calls w SysLseek + Z.to_nat loops)%nat \/
     r = -1 /\
     exists j, (j < Z.to_nat loops * Z.to_nat (blocks opts))%nat /\
               stopped_at env w w' j).
Proof.
  unfold doshred_loops, bind.
  destruct (pass_loop_spec env opts fd (Z.to_nat loops) w)
    as (w1 & f & E1 & R1 & L1 & A1).
  rewrite E1.
  destruct A1 as [(-> & R & S1) | (j & Hj & -> & St)].
  - exists w1, 0. split; [reflexivity |].
    split; [exact R1 |]. split; [exact L1 |]. left. auto.
  - eexists; eexists. split; [reflexivity |]. cbn.
    split; [exact R1 |]. split; [exact L1 |].
    right. split; [reflexivity |]. exists j. split; [assumption |].
    exact St.
Qed.

(** ** [getfildeslen] *)

Lemma getfildeslen_spec (env : Env) (path : string) (fd : Z) (w : World) :
  exists w' r,
    getfildeslen env path fd w = (w', Val r) /\
    same_resources w w' /\
    file_data w' = file_data w /\
    (r < 0 \/ r = Z.of_nat (length (file_data w))).
Proof.
  unfold getfildeslen, getfildeslen_fail, bind, print_err, ret.
  destruct (sys_lseek_spec env fd 0 SEEK_CUR w)
    as (w1 & r1 & E1 & (T1 & V1 & H1) & D1 & _ & _ & _ & _ & _).
  rewrite E1.
  destruct (r1 <? 0).
  { eexists; eexists. split; [reflexivity |].
    unfold same_resources. cbn. repeat split; auto. left; lia. }
  destruct (sys_lseek_spec env fd 0 SEEK_END w1)
    as (w2 & r2 & E2 & (T2 & V2 & H2) & D2 & _ & _ & _ & A2 & _).
  rewrite E2.
  destruct (r2 <? 0) eqn:N2.
  { eexists; eexists. split; [reflexivity |].
    unfold same_resources. cbn. repeat split; try congruence. left; lia. }
  apply Z.ltb_ge in N2.
  destruct (sys_lseek_spec env fd r1 SEEK_SET w2)
    as (w3 & r3 & E3 & (T3 & V3 & H3) & D3 & _ & _ & _ & _ & _).
  rewrite E3.
  destruct (r3 <? 0).
  { eexists; eexists. split; [reflexivity |].
    unfold same_resources. cbn. repeat split; try congruence. left; lia. }
  eexists; eexists. split; [reflexivity |].
  unfold same_resources. repeat split; try congruence.
  right. destruct A2 as [A2 | (_ & _ & A2)]; [lia |].
  rewrite A2, D1. lia.
Qed.

(** ** Failure of the random source *)

(** C1 (counterexample). The device delivers 0 of the 1 byte asked for.
    The pass is not aborted: the write of the buffer follows (2 write
    calls), [doshred] returns 0 and the file holds the byte that [malloc]
    left in the buffer. *)
Lemma short_read_not_detected :
  let r := doshred env_short_read (set_safe (default_opts 0 0) 1) "f"
             TARGET_FD 1 1 (open_world [x41]) in
  env_read env_short_read 0 = Some [] /\
  snd r = Val (mk_opts 1 1 1 0 0 3, 0) /\
  snd r <> Val (mk_opts 1 1 1 0 0 3, -1) /\
  calls (fst r) SysRead = 1%nat /\
  calls (fst r) SysWrite = 2%nat /\
  file_data (fst r) = [xaa].
Proof.
  cbv zeta. vm_compute. repeat split; discriminate.
Qed.

(** C1 (as amended). When [readin] returns the null pointer, that is when
    an allocation fails, [doshred] stops at once: the failed allocation
    is its last call on the random source and no write call follows it
    (block [j] of the run has made [2 j + 1] write calls by then), it
    returns -1, and no buffer and no device descriptor is left behind. *)
Theorem doshred_aborts_on_null_buffer (env : Env) (opts : shred_opts)
  (path : string) (fildes loops len : Z) (w w1 : World)
  (opts1 : shred_opts) (j : nat) :
  getblocks env opts len w = (w1, Val opts1) ->
  first_malloc_failure env (calls w SysMalloc) j ->
  (j < Z.to_nat loops * Z.to_nat (blocks opts1))%nat ->
  exists w',
    doshred env opts path fildes loops len w = (w', Val (opts1, -1)) /\
    calls w' SysMalloc = (calls w SysMalloc + j + 1)%nat /\
    calls w' SysWrite = (calls w SysWrite + 2 * j + 1)%nat /\
    live_bufs w' = live_bufs w /\ dev_fds w' = dev_fds w.
Proof.
  intros Hg Hf Hj.
  pose proof (getblocks_world env opts len w) as G. cbv zeta in G.
  rewrite Hg in G. cbn [fst] in G.
  destruct G as (_ & _ & T0 & V0 & H0 & M0 & W0 & _).
  unfold doshred, bind. rewrite Hg.
  destruct (doshred_loops_spec env opts1 path fildes loops w1)
    as (w' & r & E & (T & V & H) & _ & A).
  rewrite E. unfold ret.
  destruct A as [(-> & (Ok & _) & _) | (-> & j' & Hj' & St)].
  - exfalso. destruct Hf as [_ Bad].
    rewrite M0 in Ok. rewrite (Ok j Hj) in Bad. discriminate.
  - exists w'. split; [reflexivity |].
    destruct St as (F' & Mc & Wc). rewrite M0, W0 in *.
    rewrite (first_malloc_failure_unique env _ j j' Hf F').
    repeat split; congruence.
Qed.

Lemma doshred_aborts_on_null_buffer_witness :
  getblocks env_third_malloc_fails (set_safe (default_opts 0 0) 1) 5
    (open_world [x41; x42; x43; x44; x45])
  = (tick SysStdout (open_world [x41; x42; x43; x44; x45]),
     Val (mk_opts 5 1 1 0 0 3)) /\
  first_malloc_failure env_third_malloc_fails
    (calls (open_world [x41; x42; x43; x44; x45]) SysMalloc) 2 /\
  (2 < Z.to_nat 3 * Z.to_nat (blocks (mk_opts 5 1 1 0 0 3)))%nat /\
  exists w',
    doshred env_third_malloc_fails (set_safe (default_opts 0 0) 1) "f"
      TARGET_FD 3 5 (open_world [x41; x42; x43; x44; x45])
    = (w', Val (mk_opts 5 1 1 0 0 3, -1)) /\
    calls w' SysMalloc = 3%nat /\
    calls w' SysWrite = 5%nat /\
    live_bufs w' = 0%nat /\ dev_fds w' = 0%nat.
Proof.
  assert (F : first_malloc_failure env_third_malloc_fails
                (calls (open_world [x41; x42; x43; x44; x45]) SysMalloc) 2).
  { split; [| reflexivity].
    intros i Hi. destruct i as [| [| i]]; [reflexivity | reflexivity | lia]. }
  assert (L : (2 < Z.to_nat 3 * Z.to_nat (blocks (mk_opts 5 1 1 0 0 3)))%nat)
    by (simpl; lia).
  split; [reflexivity |]. split; [exact F |]. split; [exact L |].
  exact (doshred_aborts_on_null_buffer env_third_malloc_fails
           (set_safe (default_opts 0 0) 1) "f" TARGET_FD 3 5
           (open_world [x41; x42; x43; x44; x45]) _ (mk_opts 5 1 1 0 0 3) 2
           eq_refl F L).
Defined.

(** C10. When every allocation succeeds, the loops of [doshred] return 0,
    whatever the descriptor is and whatever [write] and [lseek] answer;
    so does [doshred] whenever [getblocks] hands it a plan. *)
Theorem doshred_ignores_write_and_seek_failures (env : Env)
  (opts : shred_opts) (path : string) (fildes loops : Z) (w : World) :
  (forall i, env_malloc env i = true) ->
  snd (doshred_loops env opts path fildes loops w) = Val 0 /\
  forall len,
    match getblocks env opts len w with
    | (_, Val opts') =>
        snd (doshred env opts path fildes loops len w) = Val (opts', 0)
    | (_, Fault) =>
        snd (doshred env opts path fildes loops len w) = Fault
    end.
Proof.
  intros Hm.
  assert (K : forall o w0,
             snd (doshred_loops env o path fildes loops w0) = Val 0).
  { intros o w0.
    destruct (doshred_loops_spec env o path fildes loops w0)
      as (w' & r & E & _ & _ & A).
    rewrite E. cbn [snd].
    destruct A as [(-> & _) | (_ & j & _ & (_ & Bad) & _)];
      [reflexivity |].
    rewrite Hm in Bad. discriminate. }
  split; [apply K |].
  intros len. unfold doshred, bind.
  destruct (getblocks env opts len w) as [w1 [opts1 |]]; [| reflexivity].
  specialize (K opts1 w1).
  destruct (doshred_loops env opts1 path fildes loops w1) as [w2 [r |]];
    cbn [snd] in K; [| discriminate].
  inversion K. reflexivity.
Qed.

Lemma doshred_ignores_write_and_seek_failures_witness :
  (forall i, env_malloc env_target_fails i = true) /\
  env_write env_target_fails 0 = WriteError /\
  env_lseek env_target_fails 0 = false /\
  snd (doshred_loops env_target_fails (mk_opts 2 1 1 0 0 3) "f" TARGET_FD 3
         (open_world [x41; x42])) = Val 0.
Proof.
  split; [intros i; reflexivity |].
  split; [reflexivity |]. split; [reflexivity |].
  exact (proj1 (doshred_ignores_write_and_seek_failures env_target_fails
                  (mk_opts 2 1 1 0 0 3) "f" TARGET_FD 3
                  (open_world [x41; x42]) (fun i => eq_refl))).
Defined.

(** ** [fileshred] *)

Lemma plan_fits (b bl len : Z) (n : nat) :
  0 <= b -> 0 <= bl -> b * bl <= len -> len <= Z.of_nat n ->
  (Z.to_nat b * Z.to_nat bl <= n)%nat.
Proof.
  intros Hb Hbl Hp Hn.
  rewrite <- Z2Nat.inj_mul by assumption.
  apply Nat2Z.inj_le. rewrite Z2Nat.id by (apply Z.mul_nonneg_nonneg; lia).
  lia.
Qed.

(** [doshred] on the open target, with a length not above the file's *)
Lemma doshred_keeps_length (env : Env) (opts : shred_opts) (path : string)
  (fd loops len : Z) (w : World) :
  tfd w = Some fd -> (forall i, env_lseek env i = true) ->
  0 <= len <= Z.of_nat (length (file_data w)) ->
  let w' := fst (doshred env opts path fd loops len w) in
  length (file_data w') = length (file_data w) /\ tfd w' = tfd w.
Proof.
  intros Ht Hl Hlen. cbv zeta.
  pose proof (getblocks_world env opts len w) as G. cbv zeta in G.
  unfold doshred, bind.
  destruct (getblocks env opts len w) as [w1 [opts1 |]] eqn:Hg;
    cbn [fst] in G; destruct G as (D0 & _ & T0 & _).
  - destruct (getblocks_plan_bound env opts len w w1 opts1 (proj1 Hlen) Hg)
      as (Hb & Hbl & Hp).
    destruct (doshred_loops_spec env opts1 path fd loops w1)
      as (w2 & r & E & (T & _ & _) & L & _).
    rewrite E. cbn [fst ret].
    split; [| congruence].
    rewrite L; [congruence | congruence | assumption |].
    rewrite D0. apply (plan_fits _ _ len); lia.
  - cbn [fst]. split; congruence.
Qed.

(** C4. Shredding a file does not change its length: when the seeks on
    the target succeed, the file is as long after [fileshred] as before,
    in every outcome of the run (success, failure or fault) and whatever
    [write], [read], [malloc], [open] and [getrlimit] answer. *)
Theorem fileshred_preserves_length (env : Env) (opts : shred_opts)
  (path : string) (w : World) :
  (forall i, env_lseek env i = true) ->
  length (file_data (fst (fileshred env opts path w)))
  = length (file_data w).
Proof.
  intros Hl. unfold fileshred, bind, sys_open. cbv zeta.
  destruct (env_open env (calls w SysOpen)); [| reflexivity].
  cbn [Z.ltb TARGET_FD Z.compare].
  set (w0 := set_tfd _ _).
  assert (D0 : file_data w0 = file_data w) by reflexivity.
  assert (T0 : tfd w0 = Some TARGET_FD) by reflexivity.
  clearbody w0.
  destruct (getfildeslen_spec env path TARGET_FD w0)
    as (w1 & len & E1 & (T1 & _ & _) & D1 & A1).
  rewrite E1.
  destruct (len <? 0) eqn:N; [cbn; congruence |].
  apply Z.ltb_ge in N. destruct A1 as [A1 | A1]; [lia |].
  assert (Hlen : 0 <= to_size_t len <= Z.of_nat (length (file_data w1))).
  { pose proof (to_size_t_range len). pose proof (to_size_t_le len N).
    rewrite D1. lia. }
  pose proof (doshred_keeps_length env opts path TARGET_FD 3 (to_size_t len)
                w1 (eq_trans T1 T0) Hl Hlen) as K.
  cbv zeta in K.
  destruct (doshred env opts path TARGET_FD 3 (to_size_t len) w1)
    as [w2 [r |]]; cbn [fst] in K; destruct K as [K _].
  - unfold sys_close, ret. cbv zeta.
    destruct (snd r <? 0);
      repeat (break_inner; cbn [fst file_data set_tfd set_dev_fds tick]);
      congruence.
  - cbn [fst]. congruence.
Qed.

Lemma fileshred_preserves_length_witness :
  (forall i, env_lseek (env_ok 4096) i = true) /\
  length (file_data (fst (fileshred (env_ok 4096) (default_opts 0 0) "f"
                            (init_world [x41; x42; x43]))))
  = length (file_data (init_world [x41; x42; x43])).
Proof.
  split; [intros i; reflexivity |].
  exact (fileshred_preserves_length (env_ok 4096) (default_opts 0 0) "f"
           (init_world [x41; x42; x43]) (fun i => eq_refl)).
Defined.

(** ** What the code does where the description asks for something else *)

(** C2. The first sub-step of a block passes the null pointer to [write]:
    it never changes the file or the offset.  On a file of two bytes the
    call returns -1 and the bytes and the offset stay as they were; after
    a whole safe-mode run the file holds the device's bytes and no zero
    byte. *)
Theorem zero_write_writes_nothing :
  (forall env fd n w, same_file w (fst (sys_write env fd None n w))) /\
  (let r := sys_write (env_ok 4096) TARGET_FD None 2 (open_world [x41; x42]) in
   snd r = Val (-1) /\
   file_data (fst r) = [x41; x42] /\ file_pos (fst r) = 0%nat) /\
  file_data (fst (fileshred (env_ok 4096) (set_safe (default_opts 0 0) 1) "f"
                    (init_world [x41; x42]))) = [x5a; x5a].
Proof.
  split; [exact sys_write_null |].
  split; [| reflexivity].
  cbv zeta. repeat split; reflexivity.
Qed.

(** C3. [fileshred] passes the constant 3 to [doshred]: whatever the
    value [k] of [interations], a one-byte file in safe mode gets 3
    passes (3 seeks to offset 0 after the 3 seeks of the length probe),
    3 calls of the random source and 6 write calls. *)
Theorem fileshred_runs_three_passes (k : Z) :
  let r := fileshred (env_ok 4096)
             (set_interations (set_safe (default_opts 0 0) 1) k) "f"
             (init_world [x41]) in
  snd r = Val (mk_opts 1 1 1 0 0 k, 0) /\
  calls (fst r) SysLseek = 6%nat /\
  calls (fst r) SysMalloc = 3%nat /\
  calls (fst r) SysWrite = 6%nat.
Proof.
  cbv zeta. repeat split; reflexivity.
Qed.

(** C6. When [open] succeeds and the length probe fails, [fileshred]
    returns -1 with the descriptor still open and without a call of
    [close]; when a pass fails it closes the descriptor before it
    returns -1. *)
Theorem fileshred_leaks_descriptor :
  (let r := fileshred env_first_lseek_fails (default_opts 0 0) "f"
              (init_world [x41]) in
   snd r = Val (default_opts 0 0, -1) /\
   tfd (fst r) = Some TARGET_FD /\
   calls (fst r) SysClose = 0%nat) /\
  (let r := fileshred env_third_malloc_fails (default_opts 0 0) "f"
              (init_world [x41]) in
   snd r = Val (mk_opts 1 1 0 0 0 3, -1) /\
   tfd (fst r) = None).
Proof.
  cbv zeta. repeat split; reflexivity.
Qed.

(** * Further properties of the code *)

(** ** The length probe, [getfildeslen] *)

Lemma is_tfd_true (w : World) (fd : Z) : tfd w = Some fd -> is_tfd w fd = true.
Proof. intros H. unfold is_tfd. rewrite H. apply Z.eqb_refl. Qed.

(** a seek that the kernel accepts, to an offset that is not negative *)
Lemma sys_lseek_ok (env : Env) (fd off : Z) (wh : whence) (w : World) :
  tfd w = Some fd -> env_lseek env (calls w SysLseek) = true ->
  let target := match wh with
                | SEEK_SET => 0
                | SEEK_CUR => Z.of_nat (file_pos w)
                | SEEK_END => Z.of_nat (length (file_data w))
                end + off in
  0 <= target ->
  sys_lseek env fd off wh w
  = (set_file (tick SysLseek w) (file_data w) (Z.to_nat target), Val target).
Proof.
  intros Ht Hl target Hp. unfold sys_lseek. cbv zeta.
  rewrite (is_tfd_true w fd Ht), Hl. cbn [andb]. fold target.
  destruct (target <? 0) eqn:E; [apply Z.ltb_lt in E; lia | reflexivity].
Qed.

(** the probe when its three seeks succeed *)
Lemma getfildeslen_ok (env : Env) (path : string) (fd : Z) (w : World) :
  tfd w = Some fd ->
  env_lseek env (calls w SysLseek) = true ->
  env_lseek env (S (calls w SysLseek)) = true ->
  env_lseek env (S (S (calls w SysLseek))) = true ->
  exists w',
    getfildeslen env path fd w
    = (w', Val (Z.of_nat (length (file_data w)))) /\
    file_pos w' = file_pos w /\ file_data w' = file_data w /\
    tfd w' = tfd w /\
    calls w' SysLseek = (calls w SysLseek + 3)%nat /\
    calls w' SysStderr = calls w SysStderr /\
    calls w' SysRead = calls w SysRead.
Proof.
  intros Ht H0 H1 H2. unfold getfildeslen, bind.
  rewrite (sys_lseek_ok env fd 0 SEEK_CUR w Ht H0) by (cbv zeta; lia).
  replace (Z.of_nat (file_pos w) + 0 <? 0) with false
    by (symmetry; apply Z.ltb_ge; lia).
  set (w1 := set_file _ _ _).
  rewrite (sys_lseek_ok env fd 0 SEEK_END w1 Ht H1) by (cbv zeta; lia).
  replace (Z.of_nat (length (file_data w1)) + 0 <? 0) with false
    by (symmetry; apply Z.ltb_ge; lia).
  set (w2 := set_file _ _ _).
  rewrite (sys_lseek_ok env fd (Z.of_nat (file_pos w) + 0) SEEK_SET w2 Ht H2)
    by (cbv zeta; lia).
  replace (0 + (Z.of_nat (file_pos w) + 0) <? 0) with false
    by (symmetry; apply Z.ltb_ge; lia).
  eexists. split.
  - unfold ret. f_equal. f_equal. subst w1. cbn. lia.
  - subst w2 w1. cbn. repeat split; try reflexivity; lia.
Qed.

(** X1. When its three seeks succeed on the open target, [getfildeslen]
    returns the length of the file, and the offset and the bytes are as
    they were before the probe. *)
Theorem getfildeslen_probe (env : Env) (path : string) (fd : Z) (w : World) :
  tfd w = Some fd ->
  env_lseek env (calls w SysLseek) = true ->
  env_lseek env (S (calls w SysLseek)) = true ->
  env_lseek env (S (S (calls w SysLseek))) = true ->
  exists w',
    getfildeslen env path fd w
    = (w', Val (Z.of_nat (length (file_data w)))) /\
    file_pos w' = file_pos w /\ file_data w' = file_data w /\
    tfd w' = tfd w /\
    calls w' SysLseek = (calls w SysLseek + 3)%nat /\
    calls w' SysStderr = calls w SysStderr.
Proof.
  intros Ht H0 H1 H2.
  destruct (getfildeslen_ok env path fd w Ht H0 H1 H2)
    as (w' & E & P & D & T & L & S & _).
  exists w'. auto 10.
Qed.

Lemma getfildeslen_probe_witness :
  tfd (open_world [x41; x42; x43]) = Some TARGET_FD /\
  env_lseek (env_ok 4096) (calls (open_world [x41; x42; x43]) SysLseek)
    = true /\
  env_lseek (env_ok 4096) (S (calls (open_world [x41; x42; x43]) SysLseek))
    = true /\
  env_lseek (env_ok 4096)
    (S (S (calls (open_world [x41; x42; x43]) SysLseek))) = true /\
  exists w',
    getfildeslen (env_ok 4096) "f" TARGET_FD (open_world [x41; x42; x43])
    = (w', Val (Z.of_nat (length (file_data (open_world [x41; x42; x43])))))
    /\
    file_pos w' = file_pos (open_world [x41; x42; x43]) /\
    file_data w' = file_data (open_world [x41; x42; x43]) /\
    tfd w' = tfd (open_world [x41; x42; x43]) /\
    calls w' SysLseek
    = (calls (open_world [x41; x42; x43]) SysLseek + 3)%nat /\
    calls w' SysStderr = calls (open_world [x41; x42; x43]) SysStderr.
Proof.
  split; [reflexivity |]. split; [reflexivity |].
  split; [reflexivity |]. split; [reflexivity |].
  exact (getfildeslen_probe (env_ok 4096) "f" TARGET_FD
           (open_world [x41; x42; x43]) eq_refl eq_refl eq_refl eq_refl).
Defined.

(** X2. [getfildeslen] has two outcomes only, whatever the seeks answer:
    -1 after a diagnostic, or the length of the file with the offset back
    where it was and no diagnostic.  It never changes the bytes of the
    file and never closes the descriptor. *)
Theorem getfildeslen_outcomes (env : Env) (path : string) (fd : Z)
  (w : World) :
  exists w' r,
    getfildeslen env path fd w = (w', Val r) /\
    file_data w' = file_data w /\ tfd w' = tfd w /\
    (r = -1 /\ calls w' SysStderr = S (calls w SysStderr) \/
     r = Z.of_nat (length (file_data w)) /\ file_pos w' = file_pos w /\
     calls w' SysStderr = calls w SysStderr).
Proof.
  unfold getfildeslen, getfildeslen_fail, bind, print_err, ret.
  destruct (sys_lseek_spec env fd 0 SEEK_CUR w)
    as (w1 & r1 & E1 & (T1 & _ & _) & D1 & C1 & _ & P1 & A1 & _).
  rewrite E1.
  destruct (r1 <? 0) eqn:N1.
  { eexists; eexists. split; [reflexivity |]. cbn.
    rewrite C1. repeat split; auto. }
  apply Z.ltb_ge in N1. destruct A1 as [A1 | (_ & _ & A1)]; [lia |].
  destruct (sys_lseek_spec env fd 0 SEEK_END w1)
    as (w2 & r2 & E2 & (T2 & _ & _) & D2 & C2 & _ & _ & A2 & _).
  rewrite E2.
  destruct (r2 <? 0) eqn:N2.
  { eexists; eexists. split; [reflexivity |]. cbn.
    rewrite C2, C1. repeat split; try congruence. left. auto. }
  apply Z.ltb_ge in N2. destruct A2 as [A2 | (_ & _ & A2)]; [lia |].
  destruct (sys_lseek_spec env fd r1 SEEK_SET w2)
    as (w3 & r3 & E3 & (T3 & _ & _) & D3 & C3 & _ & P3 & A3 & _).
  rewrite E3.
  destruct (r3 <? 0) eqn:N3.
  { eexists; eexists. split; [reflexivity |]. cbn.
    rewrite C3, C2, C1. repeat split; try congruence. left. auto. }
  apply Z.ltb_ge in N3. destruct A3 as [A3 | (_ & _ & A3)]; [lia |].
  eexists; eexists. split; [reflexivity |].
  repeat split; try congruence.
  right. rewrite (P3 N3), A3, A1, A2, D1, C3, C2, C1. cbn.
  repeat split; lia.
Qed.

(** ** The plan of [getblocks] *)

(** X3. A plan leaves fewer bytes of the file uncovered than it has
    blocks: [blocks * block_len] is at most the length and misses it by
    at most [blocks - 1] bytes (by nothing when there is one block or
    none). *)
Theorem getblocks_coverage (env : Env) (opts : shred_opts) (len : Z)
  (w w' : World) (opts' : shred_opts) :
  0 <= len ->
  getblocks env opts len w = (w', Val opts') ->
  blocks opts' * block_len opts' <= len /\
  len - blocks opts' * block_len opts' <= Z.max 0 (blocks opts' - 1).
Proof.
  intros Hl. unfold getblocks, bind, sys_getrlimit, print_out, print_err,
    ret, udiv.
  cbn [safe set_plan].
  destruct (safe opts =? 0).
  - destruct (env_rlimit env (calls w SysGetrlimit)) as [B |];
      cbn [option_map].
    + destruct (len =? 0); [discriminate |].
      cbn [blocks block_len set_plan].
      pose proof (to_size_t_range (to_size_t B / len + 1)) as Hr.
      set (n := to_size_t (to_size_t B / len + 1)) in *.
      destruct (n =? 0) eqn:Ez; [discriminate |].
      apply Z.eqb_neq in Ez.
      destruct (len / n <=? 0) eqn:El;
        intros E; inversion E; subst; cbn [blocks block_len set_plan].
      * lia.
      * pose proof (Z.div_mod len n Ez) as Hd.
        pose proof (Z.mod_pos_bound len n) as Hm. lia.
    + cbn [verbose set_safe set_plan].
      destruct (verbose opts =? 0); cbn; intros E; inversion E; subst;
        cbn [blocks block_len set_plan]; lia.
  - cbn. intros E; inversion E; subst; cbn [blocks block_len set_plan]. lia.
Qed.

Lemma getblocks_coverage_witness :
  0 <= 5 /\
  getblocks (env_ok 5) (default_opts 0 0) 5 (init_world [])
  = (tick SysStdout (tick SysGetrlimit (init_world [])),
     Val (mk_opts 2 2 0 0 0 3)) /\
  blocks (mk_opts 2 2 0 0 0 3) * block_len (mk_opts 2 2 0 0 0 3) <= 5 /\
  5 - blocks (mk_opts 2 2 0 0 0 3) * block_len (mk_opts 2 2 0 0 0 3)
  <= Z.max 0 (blocks (mk_opts 2 2 0 0 0 3) - 1).
Proof.
  assert (H : 0 <= 5) by lia.
  split; [exact H |]. split; [reflexivity |].
  exact (getblocks_coverage (env_ok 5) (default_opts 0 0) 5 (init_world [])
           (tick SysStdout (tick SysGetrlimit (init_world [])))
           (mk_opts 2 2 0 0 0 3) H eq_refl).
Defined.

(** X4. When the memory budget is smaller than the file, the plan is one
    block as long as the whole file: the buffer asked of [malloc] is
    larger than the budget. *)
Theorem getblocks_budget_below_length (env : Env) (opts : shred_opts)
  (len B : Z) (w : World) :
  safe opts = 0 -> env_rlimit env (calls w SysGetrlimit) = Some B ->
  0 <= B < len -> B < SIZE_MOD ->
  snd (getblocks env opts len w) = Val (set_plan opts 1 len) /\
  B < block_len (set_plan opts 1 len).
Proof.
  intros Hs Hr HB Hm.
  unfold getblocks, bind, sys_getrlimit, print_out, ret, udiv.
  cbn [safe set_plan]. rewrite Hs. change (0 =? 0) with true.
  cbv beta iota. rewrite Hr. cbn [option_map].
  assert (Eb : to_size_t B = B)
    by (unfold to_size_t; apply Z.mod_small; lia).
  rewrite Eb.
  destruct (len =? 0) eqn:En; [apply Z.eqb_eq in En; lia |].
  cbn [blocks block_len set_plan].
  rewrite (Z.div_small B len) by lia.
  change (to_size_t (0 + 1)) with 1. cbn [Z.eqb]. rewrite Z.div_1_r.
  destruct (len <=? 0) eqn:El; [apply Z.leb_le in El; lia |].
  cbn. split; [reflexivity | lia].
Qed.

Lemma getblocks_budget_below_length_witness :
  safe (default_opts 0 0) = 0 /\
  env_rlimit (env_ok 10) (calls (init_world []) SysGetrlimit) = Some 10 /\
  0 <= 10 < 100 /\ 10 < SIZE_MOD /\
  snd (getblocks (env_ok 10) (default_opts 0 0) 100 (init_world []))
  = Val (set_plan (default_opts 0 0) 1 100) /\
  10 < block_len (set_plan (default_opts 0 0) 1 100).
Proof.
  assert (H : 0 <= 10 < 100) by lia.
  assert (H' : 10 < SIZE_MOD) by reflexivity.
  split; [reflexivity |]. split; [reflexivity |].
  split; [exact H |]. split; [exact H' |].
  exact (getblocks_budget_below_length (env_ok 10) (default_opts 0 0) 100 10
           (init_world []) eq_refl eq_refl H H').
Defined.

(** ** The buffer of [readin] *)

(** what [malloc] leaves in the block of its call number [i] *)
Lemma fresh_length (env : Env) (i n : nat) :
  length (map (env_fresh env i) (seq 0 n)) = n.
Proof. rewrite length_map, length_seq. reflexivity. Qed.

(** the buffer that [readin] hands back when its allocation succeeds *)
Lemma readin_buffer (env : Env) (path : string) (n : Z) (w : World) :
  env_malloc env (calls w SysMalloc) = true ->
  let bl := Z.to_nat n in
  let fresh := map (env_fresh env (calls w SysMalloc)) (seq 0 bl) in
  exists w',
    readin env path n w
    = (w', Val (Some
         (if env_devopen env (calls w SysDevOpen)
          then match env_read env (calls w SysRead) with
               | Some src =>
                   firstn bl src ++ skipn (Nat.min bl (length src)) fresh
               | None => fresh
               end
          else fresh))) /\
    same_file w w' /\ tfd w' = tfd w /\
    calls w' SysRead
    = (if env_devopen env (calls w SysDevOpen)
       then S (calls w SysRead) else calls w SysRead) /\
    calls w' SysWrite = calls w SysWrite.
Proof.
  intros Hm bl fresh.
  unfold readin, readin_fail, bind, ret, sys_malloc, sys_open_rdonly,
    sys_read, sys_close, print_err, same_file, is_tfd.
  cbv zeta. rewrite Hm. cbn.
  fold bl. fold fresh.
  replace (length fresh) with bl by (symmetry; apply fresh_length).
  rewrite Nat.min_id.
  destruct (env_devopen env (calls w SysDevOpen)); cbn.
  - destruct (env_read env (calls w SysRead)) as [src |]; cbn.
    + rewrite length_firstn.
      destruct (Z.of_nat (Nat.min bl (length src)) <? 0); cbn;
        eexists; (split; [reflexivity |]); cbn; auto.
    + eexists; (split; [reflexivity |]); cbn; auto.
  - eexists; (split; [reflexivity |]); cbn; auto.
Qed.

(** X5. [readin] returns the null pointer exactly when [malloc] fails.
    Every buffer it returns has exactly the length asked for, also after a
    failed open, a failed read or a short read.  It never leaves a
    descriptor open on the device and never touches the target. *)
Theorem readin_result (env : Env) (path : string) (n : Z) (w : World) :
  exists w' rb,
    readin env path n w = (w', Val rb) /\
    match rb with
    | Some buf =>
        env_malloc env (calls w SysMalloc) = true /\
        length buf = Z.to_nat n /\ live_bufs w' = S (live_bufs w)
    | None =>
        env_malloc env (calls w SysMalloc) = false /\
        live_bufs w' = live_bufs w
    end /\
    dev_fds w' = dev_fds w /\ same_file w w' /\ tfd w' = tfd w.
Proof.
  destruct (readin_spec env path n w)
    as (w' & rb & E & F & T & V & _ & _ & _ & A).
  exists w', rb. split; [exact E |].
  split; [| auto].
  destruct (env_malloc env (calls w SysMalloc)) eqn:Hm.
  - destruct A as [[buf ->] H]. split; [reflexivity |]. split; [| exact H].
    destruct (readin_buffer env path n w Hm) as (w2 & E2 & _).
    rewrite E in E2. inversion E2 as [[Hw Hb]]. clear E2.
    destruct (env_devopen env (calls w SysDevOpen));
      [destruct (env_read env (calls w SysRead)) as [src |] |];
      try apply fresh_length.
    rewrite length_app, length_firstn, length_skipn, fresh_length. lia.
  - destruct A as [-> H]. auto.
Qed.

(** X6. What the buffer of [readin] holds when the allocation succeeds:
    the bytes the read delivered, followed by what [malloc] left in the
    rest of the block; after a failed open or a failed read, the whole
    block as [malloc] left it. *)
Theorem readin_buffer_contents (env : Env) (path : string) (n : Z)
  (w : World) :
  env_malloc env (calls w SysMalloc) = true ->
  snd (readin env path n w)
  = Val (Some
      (if env_devopen env (calls w SysDevOpen)
       then match env_read env (calls w SysRead) with
            | Some src =>
                firstn (Z.to_nat n) src
                ++ skipn (Nat.min (Z.to_nat n) (length src))
                     (map (env_fresh env (calls w SysMalloc))
                          (seq 0 (Z.to_nat n)))
            | None =>
                map (env_fresh env (calls w SysMalloc)) (seq 0 (Z.to_nat n))
            end
       else map (env_fresh env (calls w SysMalloc)) (seq 0 (Z.to_nat n)))).
Proof.
  intros Hm.
  destruct (readin_buffer env path n w Hm) as (w' & E & _).
  rewrite E. reflexivity.
Qed.

Lemma readin_buffer_contents_witness :
  env_malloc env_short_read (calls (init_world []) SysMalloc) = true /\
  snd (readin env_short_read "/dev/urandom" 2 (init_world []))
  = Val (Some [xaa; xaa]).
Proof.
  split; [reflexivity |].
  exact (readin_buffer_contents env_short_read "/dev/urandom" 2
           (init_world []) eq_refl).
Defined.

(** ** What a run writes when every call succeeds *)

Lemma write_at_inside (d : list byte) (p : nat) (bs : list byte) :
  (p + length bs <= length d)%nat ->
  write_at d p bs = firstn p d ++ bs ++ skipn (p + length bs) d.
Proof.
  intros H. unfold write_at. destruct bs as [| b bs'].
  - cbn. rewrite Nat.add_0_r. symmetry. apply firstn_skipn.
  - replace (p - length d)%nat with 0%nat by lia. reflexivity.
Qed.

(** a write that the kernel serves in full, inside the file *)
Lemma sys_write_full (env : Env) (fd : Z) (bs : list byte) (n : Z)
  (w : World) :
  tfd w = Some fd -> env_write env (calls w SysWrite) = WriteAll ->
  length bs = Z.to_nat n -> fits w (Z.to_nat n) ->
  exists w' r,
    sys_write env fd (Some bs) n w = (w', Val r) /\
    file_data w'
    = firstn (file_pos w) (file_data w) ++ bs
        ++ skipn (file_pos w + Z.to_nat n) (file_data w) /\
    file_pos w' = (file_pos w + Z.to_nat n)%nat /\
    same_resources w w' /\
    calls w' = bump SysWrite (calls w).
Proof.
  intros Ht Hw Hb Hf. unfold sys_write, fits, same_resources in *.
  cbv zeta. rewrite (is_tfd_true w fd Ht), Hw. cbn [negb write_count].
  destruct (n =? 0) eqn:En.
  - apply Z.eqb_eq in En. subst n. cbn in Hb.
    destruct bs; [| discriminate].
    eexists; eexists. split; [reflexivity |]. cbn.
    rewrite !Nat.add_0_r, firstn_skipn. repeat split; reflexivity.
  - rewrite <- Hb, firstn_all.
    eexists; eexists. split; [reflexivity |]. cbn.
    rewrite write_at_inside by lia. repeat split; reflexivity.
Qed.

Lemma read_bytes_block (env : Env) (bl i : nat) :
  device_ok env bl -> length (firstn bl (read_bytes env i)) = bl.
Proof.
  intros (_ & _ & _ & Hr). destruct (Hr i) as (s & E & L).
  unfold read_bytes. rewrite E, length_firstn. lia.
Qed.

Lemma blocks_bytes_length (env : Env) (bl c n : nat) :
  device_ok env bl -> length (blocks_bytes env bl c n) = (n * bl)%nat.
Proof.
  intros H. unfold blocks_bytes. revert c.
  induction n as [| n IH]; intros c; [reflexivity |].
  cbn [seq flat_map]. rewrite length_app, IH, read_bytes_block by assumption.
  reflexivity.
Qed.

(** one block, every call succeeding: [block_len] bytes of the device
    replace the bytes at the offset *)
Lemma shred_block_content (env : Env) (opts : shred_opts) (fd : Z)
  (w : World) :
  let bl := Z.to_nat (block_len opts) in
  device_ok env bl -> tfd w = Some fd -> fits w bl ->
  exists w',
    shred_block env opts fd w = (w', Val Next) /\
    file_data w'
    = firstn (file_pos w) (file_data w)
        ++ firstn bl (read_bytes env (calls w SysRead))
        ++ skipn (file_pos w + bl) (file_data w) /\
    file_pos w' = (file_pos w + bl)%nat /\
    calls w' SysRead = S (calls w SysRead) /\
    tfd w' = tfd w.
Proof.
  intros bl Hd Ht Hf.
  pose proof (read_bytes_block env bl (calls w SysRead) Hd) as Lb.
  destruct Hd as (Hm & Ho & Hw & Hr).
  unfold shred_block, bind.
  pose proof (sys_write_null env fd (block_len opts) w) as [D1 P1].
  destruct (sys_write_spec env fd None (block_len opts) w)
    as (w1 & r1 & E1 & (T1 & _ & _) & C1 & _).
  rewrite E1 in *. cbn [fst] in D1, P1.
  destruct (readin_buffer env "/dev/urandom" (block_len opts) w1 (Hm _))
    as (w2 & E2 & [D2 P2] & T2 & R2 & W2).
  rewrite Ho in E2, R2. fold bl in E2.
  assert (Cr : calls w1 SysRead = calls w SysRead)
    by (rewrite C1; reflexivity).
  rewrite Cr in *.
  destruct (Hr (calls w SysRead)) as (src & Es & Ls).
  unfold read_bytes in *. rewrite Es in *.
  rewrite Nat.min_l in E2 by assumption.
  rewrite (skipn_all2 (map _ _)) in E2 by (rewrite fresh_length; lia).
  rewrite app_nil_r in E2. rewrite E2.
  destruct (sys_write_full env fd (firstn bl src) (block_len opts) w2)
    as (w3 & r3 & E3 & D3 & P3 & (T3 & _ & _) & C3);
    [congruence | apply Hw | exact Lb
     | unfold fits in *; rewrite P2, P1, D2, D1; exact Hf |].
  rewrite E3. unfold sys_free, ret. cbn.
  eexists. split; [reflexivity |]. cbn. fold bl in D3, P3.
  rewrite D3, P3, C3, P2, P1, D2, D1. cbn.
  repeat split; congruence.
Qed.

Lemma splice_twice (d X Y : list byte) (p bl m : nat) :
  length X = bl -> (p + bl <= length d)%nat ->
  firstn (p + bl) (firstn p d ++ X ++ skipn (p + bl) d)
    ++ Y ++ skipn (p + bl + m) (firstn p d ++ X ++ skipn (p + bl) d)
  = firstn p d ++ (X ++ Y) ++ skipn (p + (bl + m)) d.
Proof.
  intros <- H.
  assert (L : length (firstn p d ++ X) = (p + length X)%nat)
    by (rewrite length_app, length_firstn; lia).
  rewrite (app_assoc (firstn p d) X).
  rewrite <- L at 1. rewrite firstn_app, firstn_all, Nat.sub_diag.
  cbn [firstn]. rewrite app_nil_r.
  rewrite skipn_app, L.
  rewrite (skipn_all2 (firstn p d ++ X)) by lia. cbn [app].
  rewrite skipn_skipn.
  replace (p + length X + m - (p + length X) + (p + length X))%nat
    with (p + (length X + m))%nat by lia.
  rewrite <- !app_assoc. reflexivity.
Qed.

(** the inner loop, every call succeeding *)
Lemma block_loop_content (env : Env) (opts : shred_opts) (fd : Z) (n : nat) :
  let bl := Z.to_nat (block_len opts) in
  device_ok env bl ->
  forall w, tfd w = Some fd -> fits w (n * bl) ->
  exists w',
    block_loop env n opts fd w = (w', Val Next) /\
    file_data w'
    = firstn (file_pos w) (file_data w)
        ++ blocks_bytes env bl (calls w SysRead) n
        ++ skipn (file_pos w + n * bl) (file_data w) /\
    file_pos w' = (file_pos w + n * bl)%nat /\
    calls w' SysRead = (calls w SysRead + n)%nat /\
    tfd w' = tfd w.
Proof.
  intros bl Hd. induction n as [| n IH]; intros w Ht Hf.
  - exists w. cbn. rewrite !Nat.add_0_r, firstn_skipn. auto.
  - cbn [block_loop]. unfold bind, fits in *. cbn [Nat.mul] in *.
    destruct (shred_block_content env opts fd w Hd Ht)
      as (w1 & E1 & D1 & P1 & R1 & T1); [unfold fits; fold bl; lia |].
    fold bl in D1, P1. rewrite E1.
    pose proof (read_bytes_block env bl (calls w SysRead) Hd) as Lb.
    set (X := firstn bl (read_bytes env (calls w SysRead))) in *.
    assert (L1 : length (file_data w1) = length (file_data w)).
    { rewrite D1, !length_app, length_firstn, length_skipn, Lb. lia. }
    destruct (IH w1) as (w2 & E2 & D2 & P2 & R2 & T2);
      [congruence | rewrite P1, L1; lia |].
    rewrite E2. exists w2. split; [reflexivity |].
    split; [| repeat split; try congruence; lia].
    rewrite D2, P1, R1, D1.
    unfold blocks_bytes. cbn [seq flat_map]. fold X.
    change (flat_map _ (seq (S (calls w SysRead)) n))
      with (blocks_bytes env bl (S (calls w SysRead)) n).
    apply splice_twice; [exact Lb | lia].
Qed.

(** one pass, every call succeeding: the pass starts again at offset 0 *)
Lemma shred_pass_content (env : Env) (opts : shred_opts) (fd : Z)
  (w : World) :
  let b := Z.to_nat (blocks opts) in
  let bl := Z.to_nat (block_len opts) in
  device_ok env bl -> env_lseek env (calls w SysLseek) = true ->
  tfd w = Some fd -> (b * bl <= length (file_data w))%nat ->
  exists w',
    shred_pass env opts fd w = (w', Val Next) /\
    file_data w'
    = blocks_bytes env bl (calls w SysRead) b
        ++ skipn (b * bl) (file_data w) /\
    calls w' SysRead = (calls w SysRead + b)%nat /\
    calls w' SysLseek = S (calls w SysLseek) /\
    tfd w' = tfd w.
Proof.
  intros b bl Hd Hl Ht Hk. unfold shred_pass, bind.
  rewrite (sys_lseek_ok env fd 0 SEEK_SET w Ht Hl) by (cbv zeta; lia).
  cbn [Z.add Z.ltb Z.compare Z.to_nat]. unfold ret.
  set (w1 := set_file _ _ _).
  destruct (block_loop_content env opts fd b Hd w1) as
    (w2 & E2 & D2 & P2 & R2 & T2);
    [exact Ht | unfold fits; cbn; fold bl; lia |].
  fold b. rewrite E2. exists w2. split; [reflexivity |].
  fold bl in D2. rewrite D2, R2, T2. subst w1. cbn.
  repeat split.
  destruct (block_loop_spec env opts fd b
              (set_file (tick SysLseek w) (file_data w) 0))
    as (w3 & f3 & E3 & _ & S3 & _).
  rewrite E2 in E3. inversion E3; subst. rewrite S3. reflexivity.
Qed.

(** the outer loop, every call succeeding: the last pass decides what
    the file holds *)
Lemma pass_loop_content (env : Env) (opts : shred_opts) (fd : Z) (n : nat) :
  let b := Z.to_nat (blocks opts) in
  let bl := Z.to_nat (block_len opts) in
  device_ok env bl -> (forall i, env_lseek env i = true) ->
  forall w, tfd w = Some fd -> (b * bl <= length (file_data w))%nat ->
  exists w',
    pass_loop env n opts fd w = (w', Val Next) /\
    file_data w'
    = match n with
      | O => file_data w
      | S m => blocks_bytes env bl (calls w SysRead + m * b) b
                 ++ skipn (b * bl) (file_data w)
      end /\
    calls w' SysRead = (calls w SysRead + n * b)%nat /\
    calls w' SysLseek = (calls w SysLseek + n)%nat /\
    tfd w' = tfd w.
Proof.
  intros b bl Hd Hl. induction n as [| n IH]; intros w Ht Hk.
  - exists w. cbn. repeat split; auto.
  - cbn [pass_loop]. unfold bind.
    destruct (shred_pass_content env opts fd w Hd (Hl _) Ht Hk)
      as (w1 & E1 & D1 & R1 & S1 & T1).
    fold b bl in D1, R1. rewrite E1.
    pose proof (blocks_bytes_length env bl (calls w SysRead) b Hd) as Lb.
    assert (L1 : length (file_data w1) = length (file_data w)).
    { rewrite D1, length_app, length_skipn, Lb. lia. }
    assert (K1 : skipn (b * bl) (file_data w1) = skipn (b * bl) (file_data w)).
    { rewrite D1, skipn_app, Lb, Nat.sub_diag.
      rewrite skipn_all2 by lia. reflexivity. }
    destruct (IH w1) as (w2 & E2 & D2 & R2 & S2 & T2);
      [congruence | lia |].
    rewrite E2. exists w2. split; [reflexivity |].
    split; [| repeat split; try congruence; lia].
    rewrite D2. destruct n as [| m].
    + rewrite D1. cbn [Nat.mul]. rewrite Nat.add_0_r. reflexivity.
    + rewrite K1, R1. f_equal. f_equal. cbn [Nat.mul]. lia.
Qed.

(** planning in safe mode *)
Lemma getblocks_safe_eq (env : Env) (opts : shred_opts) (len : Z)
  (w : World) :
  safe opts <> 0 ->
  getblocks env opts len w = (tick SysStdout w, Val (set_plan opts len 1)).
Proof.
  intros H. apply Z.eqb_neq in H.
  unfold getblocks, bind, print_out, ret. cbn [safe set_plan].
  rewrite H. reflexivity.
Qed.

(** the only calls of the planner are [getrlimit] and the diagnostics *)
Lemma getblocks_calls (env : Env) (opts : shred_opts) (len : Z)
  (w : World) (k : syscall) :
  k <> SysGetrlimit -> k <> SysStderr -> k <> SysStdout ->
  calls (fst (getblocks env opts len w)) k = calls w k.
Proof.
  intros H1 H2 H3.
  unfold getblocks, bind, sys_getrlimit, print_out, print_err, ret, udiv.
  cbn [safe set_plan verbose set_safe blocks block_len].
  destruct (safe opts =? 0).
  - destruct (env_rlimit env (calls w SysGetrlimit)) as [B |];
      cbn [option_map].
    + destruct (len =? 0); [destruct k; cbn; congruence |].
      destruct (to_size_t (to_size_t B / len + 1) =? 0);
        [destruct k; cbn; congruence |].
      destruct (len / to_size_t (to_size_t B / len + 1) <=? 0);
        destruct k; cbn; congruence.
    + destruct (verbose opts =? 0); destruct k; cbn; congruence.
  - destruct k; cbn; congruence.
Qed.

(** [doshred] when every call succeeds *)
Lemma doshred_content (env : Env) (opts opts1 : shred_opts)
  (path : string) (fd loops len : Z) (w w1 : World) :
  getblocks env opts len w = (w1, Val opts1) ->
  device_ok env (Z.to_nat (block_len opts1)) ->
  (forall i, env_lseek env i = true) ->
  tfd w = Some fd -> 0 <= len <= Z.of_nat (length (file_data w)) ->
  1 <= loops ->
  let b := Z.to_nat (blocks opts1) in
  let bl := Z.to_nat (block_len opts1) in
  exists w',
    doshred env opts path fd loops len w = (w', Val (opts1, 0)) /\
    file_data w'
    = blocks_bytes env bl (calls w SysRead + (Z.to_nat loops - 1) * b) b
        ++ skipn (b * bl) (file_data w) /\
    length (file_data w') = length (file_data w) /\
    tfd w' = tfd w.
Proof.
  intros Hg Hd Hl Ht Hlen Hloops b bl.
  pose proof (getblocks_world env opts len w) as G. cbv zeta in G.
  rewrite Hg in G. cbn [fst] in G. destruct G as (D0 & _ & T0 & _).
  assert (R0 : calls w1 SysRead = calls w SysRead).
  { pose proof (getblocks_calls env opts len w SysRead) as R.
    rewrite Hg in R. apply R; discriminate. }
  destruct (getblocks_plan_bound env opts len w w1 opts1 (proj1 Hlen) Hg)
    as (Hb & Hbl & Hp).
  assert (Hk : (b * bl <= length (file_data w1))%nat)
    by (rewrite D0; apply (plan_fits _ _ len); lia).
  unfold doshred, doshred_loops, bind. rewrite Hg.
  destruct (pass_loop_content env opts1 fd (Z.to_nat loops) Hd Hl w1)
    as (w2 & E2 & D2 & R2 & _ & T2); [congruence | exact Hk |].
  rewrite E2. unfold ret. exists w2. split; [reflexivity |].
  destruct (Z.to_nat loops) as [| m] eqn:El; [lia |].
  fold b bl in D2. rewrite D2, D0, R0.
  replace (S m - 1)%nat with m by lia.
  split; [reflexivity |].
  split; [| congruence].
  rewrite length_app, length_skipn, blocks_bytes_length by assumption.
  rewrite D0 in Hk. lia.
Qed.

(** X7. When every call succeeds and at least one pass is run, [doshred]
    returns 0 and the file holds, in its first [blocks * block_len]
    bytes, the bytes that the device delivered during the last pass, in
    the order of the reads; the bytes after them are the ones the file
    had before. *)
Theorem doshred_overwrites_with_last_pass (env : Env) (opts opts1 : shred_opts)
  (path : string) (fd loops len : Z) (w w1 : World) :
  getblocks env opts len w = (w1, Val opts1) ->
  device_ok env (Z.to_nat (block_len opts1)) ->
  (forall i, env_lseek env i = true) ->
  tfd w = Some fd -> 0 <= len <= Z.of_nat (length (file_data w)) ->
  1 <= loops ->
  let b := Z.to_nat (blocks opts1) in
  let bl := Z.to_nat (block_len opts1) in
  exists w',
    doshred env opts path fd loops len w = (w', Val (opts1, 0)) /\
    file_data w'
    = blocks_bytes env bl (calls w SysRead + (Z.to_nat loops - 1) * b) b
        ++ skipn (b * bl) (file_data w) /\
    length (file_data w') = length (file_data w).
Proof.
  intros Hg Hd Hl Ht Hlen Hloops b bl.
  destruct (doshred_content env opts opts1 path fd loops len w w1
              Hg Hd Hl Ht Hlen Hloops) as (w' & E & D & L & _).
  exists w'. auto.
Qed.

Lemma doshred_overwrites_with_last_pass_witness :
  getblocks env_counting (default_opts 0 0) 5
    (open_world [x41; x42; x43; x44; x45])
  = (tick SysStdout
       (tick SysGetrlimit (open_world [x41; x42; x43; x44; x45])),
     Val (mk_opts 2 2 0 0 0 3)) /\
  device_ok env_counting (Z.to_nat (block_len (mk_opts 2 2 0 0 0 3))) /\
  (forall i, env_lseek env_counting i = true) /\
  tfd (open_world [x41; x42; x43; x44; x45]) = Some TARGET_FD /\
  0 <= 5
    <= Z.of_nat (length (file_data (open_world [x41; x42; x43; x44; x45])))
  /\
  1 <= 1 /\
  exists w',
    doshred env_counting (default_opts 0 0) "f" TARGET_FD 1 5
      (open_world [x41; x42; x43; x44; x45])
    = (w', Val (mk_opts 2 2 0 0 0 3, 0)) /\
    file_data w' = [x01; x01; x02; x02; x45] /\
    length (file_data w') = 5%nat.
Proof.
  assert (Hd : device_ok env_counting
                 (Z.to_nat (block_len (mk_opts 2 2 0 0 0 3)))).
  { repeat split; try reflexivity.
    intros i. eexists. split; [reflexivity |].
    rewrite repeat_length. simpl. lia. }
  assert (Hl : forall i, env_lseek env_counting i = true)
    by (intros i; reflexivity).
  assert (Hlen : 0 <= 5 <= Z.of_nat
            (length (file_data (open_world [x41; x42; x43; x44; x45]))))
    by (simpl; lia).
  assert (H1 : 1 <= 1) by lia.
  split; [reflexivity |]. split; [exact Hd |]. split; [exact Hl |].
  split; [reflexivity |]. split; [exact Hlen |]. split; [exact H1 |].
  exact (doshred_overwrites_with_last_pass env_counting (default_opts 0 0)
           (mk_opts 2 2 0 0 0 3) "f" TARGET_FD 1 5
           (open_world [x41; x42; x43; x44; x45]) _
           eq_refl Hd Hl eq_refl Hlen H1).
Defined.

(** X8. In safe mode, when every call succeeds, [fileshred] returns 0
    with the descriptor closed, and every byte of the file has been
    replaced: the file holds the bytes that the device delivered, one per
    read, during the third pass. *)
Theorem fileshred_safe_overwrites_whole_file (env : Env) (opts : shred_opts)
  (path : string) (w : World) :
  safe opts <> 0 ->
  env_open env (calls w SysOpen) = true ->
  (forall i, env_lseek env i = true) ->
  device_ok env 1 ->
  Z.of_nat (length (file_data w)) < SIZE_MOD ->
  let n := length (file_data w) in
  exists w',
    fileshred env opts path w
    = (w', Val (set_plan opts (Z.of_nat n) 1, 0)) /\
    file_data w' = blocks_bytes env 1 (calls w SysRead + 2 * n) n /\
    tfd w' = None.
Proof.
  intros Hs Ho Hl Hd Hn n.
  unfold fileshred, bind, sys_open. cbv zeta. rewrite Ho.
  cbn [Z.ltb TARGET_FD Z.compare].
  set (w0 := set_tfd _ _).
  assert (D0 : file_data w0 = file_data w) by reflexivity.
  assert (T0 : tfd w0 = Some TARGET_FD) by reflexivity.
  assert (R0 : calls w0 SysRead = calls w SysRead) by reflexivity.
  clearbody w0.
  destruct (getfildeslen_ok env path TARGET_FD w0 T0 (Hl _) (Hl _) (Hl _))
    as (w1 & E1 & _ & D1 & T1 & _ & _ & R1).
  rewrite E1, D0. fold n.
  replace (Z.of_nat n <? 0) with false by (symmetry; apply Z.ltb_ge; lia).
  assert (En : to_size_t (Z.of_nat n) = Z.of_nat n)
    by (unfold to_size_t; apply Z.mod_small; lia).
  rewrite En.
  destruct (doshred_content env opts (set_plan opts (Z.of_nat n) 1) path TARGET_FD 3
              (Z.of_nat n) w1 (tick SysStdout w1))
    as (w2 & E2 & D2 & _ & T2).
  - apply getblocks_safe_eq. exact Hs.
  - exact Hd.
  - exact Hl.
  - congruence.
  - rewrite D1, D0. fold n. lia.
  - lia.
  - rewrite E2. cbn [snd fst Z.ltb Z.compare].
    unfold sys_close, ret. cbv zeta.
    change (TARGET_FD =? DEV_FD) with false. cbn [andb].
    rewrite (is_tfd_true w2 TARGET_FD) by congruence.
    eexists. split; [reflexivity |].
    cbn [file_data tfd set_tfd tick]. split; [| reflexivity].
    rewrite D2. cbn [blocks block_len set_plan].
    rewrite Nat2Z.id. change (Z.to_nat 1) with 1%nat.
    rewrite Nat.mul_1_r, D1, D0, R1, R0. fold n.
    unfold n at 3. rewrite skipn_all, app_nil_r.
    change (Z.to_nat 3 - 1)%nat with 2%nat. reflexivity.
Qed.

Lemma fileshred_safe_overwrites_whole_file_witness :
  safe (set_safe (default_opts 0 0) 1) <> 0 /\
  env_open env_counting (calls (init_world [x41; x42]) SysOpen) = true /\
  (forall i, env_lseek env_counting i = true) /\
  device_ok env_counting 1 /\
  Z.of_nat (length (file_data (init_world [x41; x42]))) < SIZE_MOD /\
  exists w',
    fileshred env_counting (set_safe (default_opts 0 0) 1) "f"
      (init_world [x41; x42])
    = (w', Val (mk_opts 2 1 1 0 0 3, 0)) /\
    file_data w' = [x05; x06] /\
    tfd w' = None.
Proof.
  assert (Hs : safe (set_safe (default_opts 0 0) 1) <> 0)
    by (simpl; discriminate).
  assert (Hd : device_ok env_counting 1).
  { repeat split; try reflexivity.
    intros i. eexists. split; [reflexivity |].
    rewrite repeat_length. lia. }
  assert (Hl : forall i, env_lseek env_counting i = true)
    by (intros i; reflexivity).
  assert (Hn : Z.of_nat (length (file_data (init_world [x41; x42])))
               < SIZE_MOD) by reflexivity.
  split; [exact Hs |]. split; [reflexivity |]. split; [exact Hl |].
  split; [exact Hd |]. split; [exact Hn |].
  exact (fileshred_safe_overwrites_whole_file env_counting
           (set_safe (default_opts 0 0) 1) "f" (init_world [x41; x42])
           Hs eq_refl Hl Hd Hn).
Defined.

(** ** What a run never overwrites *)

Lemma write_at_tail (d : list byte) (p : nat) (bs : list byte) (K : nat) :
  (p + length bs <= K)%nat -> (K <= length d)%nat ->
  skipn K (write_at d p bs) = skipn K d.
Proof.
  intros H1 H2. rewrite write_at_inside by lia.
  assert (L : length (firstn p d ++ bs) = (p + length bs)%nat)
    by (rewrite length_app, length_firstn; lia).
  rewrite app_assoc, skipn_app, L.
  rewrite (skipn_all2 (firstn p d ++ bs)) by lia. cbn [app].
  rewrite skipn_skipn. f_equal. lia.
Qed.

Lemma sys_write_tail (env : Env) (fd : Z) (buf : option (list byte))
  (n : Z) (w : World) (K : nat) :
  room K w (Z.to_nat n) ->
  tail_kept K w (fst (sys_write env fd buf n w)) (Z.to_nat n).
Proof.
  unfold sys_write, room, tail_kept. cbv zeta. intros [H1 H2].
  destruct (negb (is_tfd w fd)); [cbn; repeat split; lia |].
  destruct (n =? 0); [cbn; repeat split; lia |].
  destruct buf as [bs |]; [| cbn; repeat split; lia].
  destruct (write_count (env_write env (calls w SysWrite)) (Z.to_nat n))
    as [k |] eqn:Ek; [| cbn; repeat split; lia].
  apply write_count_le in Ek.
  assert (length (firstn k bs) <= k)%nat by (rewrite length_firstn; lia).
  cbn. repeat split.
  - apply write_at_length. lia.
  - lia.
  - apply write_at_tail; lia.
Qed.

Lemma shred_block_tail (env : Env) (opts : shred_opts) (fd : Z)
  (w : World) (K : nat) :
  room K w (Z.to_nat (block_len opts)) ->
  tail_kept K w (fst (shred_block env opts fd w)) (Z.to_nat (block_len opts)).
Proof.
  intros Hr. unfold shred_block, bind.
  pose proof (sys_write_null env fd (block_len opts) w) as [D1 P1].
  destruct (sys_write_spec env fd None (block_len opts) w)
    as (w1 & r1 & E1 & _).
  rewrite E1 in *. cbn [fst] in D1, P1.
  destruct (readin_spec env "/dev/urandom" (block_len opts) w1)
    as (w2 & rb & E2 & [D2 P2] & _).
  rewrite E2.
  assert (S2 : tail_kept K w w2 (Z.to_nat (block_len opts))).
  { unfold tail_kept. rewrite D2, D1, P2, P1. repeat split; lia. }
  destruct rb as [buf |]; [| exact S2].
  pose proof (sys_write_tail env fd (Some buf) (block_len opts) w2 K) as T3.
  destruct (sys_write env fd (Some buf) (block_len opts) w2)
    as [w3 [r3 |]]; cbn [fst] in *.
  - unfold sys_free, ret. cbn.
    unfold room, tail_kept in *. rewrite D2, D1, P2, P1 in T3.
    apply T3. exact Hr.
  - unfold room, tail_kept in *. rewrite D2, D1, P2, P1 in T3.
    apply T3. exact Hr.
Qed.

Lemma block_loop_tail (env : Env) (opts : shred_opts) (fd : Z) (K n : nat) :
  forall w,
  room K w (n * Z.to_nat (block_len opts)) ->
  tail_kept K w (fst (block_loop env n opts fd w))
    (n * Z.to_nat (block_len opts)).
Proof.
  set (bl := Z.to_nat (block_len opts)).
  induction n as [| n IH]; intros w [H1 H2].
  - cbn. unfold tail_kept. repeat split; lia.
  - cbn [block_loop Nat.mul] in *. unfold bind.
    pose proof (shred_block_tail env opts fd w K) as T1. fold bl in T1.
    destruct (shred_block_spec env opts fd w) as (w1 & f1 & E1 & _).
    rewrite E1 in *. cbn [fst] in T1.
    destruct T1 as (L1 & P1 & S1); [split; lia |].
    destruct f1 as [| rb].
    + destruct (IH w1) as (L2 & P2 & S2); [split; lia |].
      unfold tail_kept. repeat split; try congruence; lia.
    + cbn. unfold tail_kept. repeat split; try congruence; lia.
Qed.

Lemma shred_pass_tail (env : Env) (opts : shred_opts) (fd : Z)
  (w : World) (K : nat) :
  tfd w = Some fd -> env_lseek env (calls w SysLseek) = true ->
  (Z.to_nat (blocks opts) * Z.to_nat (block_len opts) <= K)%nat ->
  (K <= length (file_data w))%nat ->
  let w' := fst (shred_pass env opts fd w) in
  length (file_data w') = length (file_data w) /\
  skipn K (file_data w') = skipn K (file_data w).
Proof.
  intros Ht Hl Hk HK. cbv zeta. unfold shred_pass, bind.
  rewrite (sys_lseek_ok env fd 0 SEEK_SET w Ht Hl) by (cbv zeta; lia).
  cbn [Z.add Z.ltb Z.compare Z.to_nat]. unfold ret.
  set (w1 := set_file _ _ _).
  destruct (block_loop_tail env opts fd K (Z.to_nat (blocks opts)) w1)
    as (L & _ & S); [split; cbn; lia |].
  destruct (block_loop env (Z.to_nat (blocks opts)) opts fd w1)
    as [w2 [f |]]; cbn [fst] in *; split; assumption.
Qed.

Lemma pass_loop_tail (env : Env) (opts : shred_opts) (fd : Z) (K n : nat) :
  (forall i, env_lseek env i = true) ->
  (Z.to_nat (blocks opts) * Z.to_nat (block_len opts) <= K)%nat ->
  forall w, tfd w = Some fd -> (K <= length (file_data w))%nat ->
  let w' := fst (pass_loop env n opts fd w) in
  length (file_data w') = length (file_data w) /\
  skipn K (file_data w') = skipn K (file_data w).
Proof.
  intros Hl Hk. induction n as [| n IH]; intros w Ht HK; cbv zeta.
  - cbn. auto.
  - cbn [pass_loop]. unfold bind.
    destruct (shred_pass_tail env opts fd w K Ht (Hl _) Hk HK) as [L1 S1].
    destruct (shred_pass_spec env opts fd w)
      as (w1 & f1 & E1 & (T1 & _ & _) & _).
    rewrite E1 in *. cbn [fst] in L1, S1.
    destruct f1 as [| rb]; [| cbn; auto].
    destruct (IH w1) as [L2 S2]; [congruence | lia |].
    split; congruence.
Qed.

(** the bytes of the file beyond the plan are not touched by [doshred] *)
Lemma doshred_tail (env : Env) (opts : shred_opts) (path : string)
  (fd loops len : Z) (w : World) :
  (forall i, env_lseek env i = true) ->
  tfd w = Some fd -> 0 <= len <= Z.of_nat (length (file_data w)) ->
  let r := doshred env opts path fd loops len w in
  tfd (fst r) = tfd w /\
  match snd r with
  | Val (opts', _) =>
      getblocks env opts len w = (fst (getblocks env opts len w), Val opts') /\
      skipn (Z.to_nat (blocks opts') * Z.to_nat (block_len opts'))
        (file_data (fst r))
      = skipn (Z.to_nat (blocks opts') * Z.to_nat (block_len opts'))
          (file_data w)
  | Fault => file_data (fst r) = file_data w
  end.
Proof.
  intros Hl Ht Hlen. cbv zeta.
  pose proof (getblocks_world env opts len w) as G. cbv zeta in G.
  unfold doshred, bind.
  destruct (getblocks env opts len w) as [w1 [opts1 |]] eqn:Hg;
    cbn [fst] in G; destruct G as (D0 & _ & T0 & _);
    [| cbn; split; congruence].
  destruct (getblocks_plan_bound env opts len w w1 opts1 (proj1 Hlen) Hg)
    as (Hb & Hbl & Hp).
  set (K := (Z.to_nat (blocks opts1) * Z.to_nat (block_len opts1))%nat).
  assert (HK : (K <= length (file_data w1))%nat)
    by (rewrite D0; apply (plan_fits _ _ len); lia).
  pose proof (pass_loop_tail env opts1 fd K (Z.to_nat loops) Hl
                (Nat.le_refl _) w1 (eq_trans T0 Ht) HK) as P.
  cbv zeta in P.
  destruct (doshred_loops_spec env opts1 path fd loops w1)
    as (w2 & r & E & (T & _ & _) & _).
  rewrite E. unfold ret. cbn [fst snd].
  split; [congruence |]. split; [reflexivity |].
  unfold doshred_loops, bind in E.
  destruct (pass_loop env (Z.to_nat loops) opts1 fd w1) as [w3 [f |]];
    cbn [fst] in P; [| discriminate].
  destruct P as [_ P].
  destruct f as [| rb]; unfold ret, print_err in E.
  - inversion E; subst. fold K. rewrite P, D0. reflexivity.
  - destruct rb; cbn in E; inversion E; subst; cbn; fold K;
      rewrite P, D0; reflexivity.
Qed.

(** X9. Whatever [malloc], [read] and [write] answer, [fileshred] never
    changes a byte of the file at or beyond offset [blocks * block_len]
    of the plan it used, provided the seeks succeed: the part of the file
    that the integer division leaves out of the plan keeps its old
    contents.  A run that ends in a fault has changed nothing. *)
Theorem fileshred_never_writes_beyond_plan (env : Env) (opts : shred_opts)
  (path : string) (w : World) :
  (forall i, env_lseek env i = true) ->
  let r := fileshred env opts path w in
  match snd r with
  | Val (opts', _) =>
      skipn (Z.to_nat (blocks opts') * Z.to_nat (block_len opts'))
        (file_data (fst r))
      = skipn (Z.to_nat (blocks opts') * Z.to_nat (block_len opts'))
          (file_data w)
  | Fault => file_data (fst r) = file_data w
  end.
Proof.
  intros Hl. cbv zeta. unfold fileshred, bind, sys_open. cbv zeta.
  destruct (env_open env (calls w SysOpen)); [| reflexivity].
  cbn [Z.ltb TARGET_FD Z.compare].
  set (w0 := set_tfd _ _).
  assert (D0 : file_data w0 = file_data w) by reflexivity.
  assert (T0 : tfd w0 = Some TARGET_FD) by reflexivity.
  clearbody w0.
  destruct (getfildeslen_spec env path TARGET_FD w0)
    as (w1 & len & E1 & (T1 & _ & _) & D1 & A1).
  rewrite E1.
  destruct (len <? 0) eqn:N; [cbn; congruence |].
  apply Z.ltb_ge in N. destruct A1 as [A1 | A1]; [lia |].
  assert (Hlen : 0 <= to_size_t len <= Z.of_nat (length (file_data w1))).
  { pose proof (to_size_t_range len). pose proof (to_size_t_le len N).
    rewrite D1. lia. }
  pose proof (doshred_tail env opts path TARGET_FD 3 (to_size_t len)
                w1 Hl (eq_trans T1 T0) Hlen) as K.
  cbv zeta in K.
  destruct (doshred env opts path TARGET_FD 3 (to_size_t len) w1)
    as [w2 [[opts' rv] |]]; cbn [fst snd] in K; destruct K as [_ K].
  - destruct K as [_ K]. unfold sys_close, ret. cbv zeta.
    destruct (rv <? 0);
      repeat (break_inner; cbn [fst snd file_data set_tfd set_dev_fds tick]);
      congruence.
  - cbn [fst snd]. congruence.
Qed.

Lemma fileshred_never_writes_beyond_plan_witness :
  (forall i, env_lseek env_counting i = true) /\
  snd (fileshred env_counting (default_opts 0 0) "f"
         (init_world [x41; x42; x43; x44; x45]))
  = Val (mk_opts 2 2 0 0 0 3, 0) /\
  file_data (fst (fileshred env_counting (default_opts 0 0) "f"
                    (init_world [x41; x42; x43; x44; x45])))
  = [x05; x05; x06; x06; x45] /\
  let r := fileshred env_counting (default_opts 0 0) "f"
             (init_world [x41; x42; x43; x44; x45]) in
  match snd r with
  | Val (opts', _) =>
      skipn (Z.to_nat (blocks opts') * Z.to_nat (block_len opts'))
        (file_data (fst r))
      = skipn (Z.to_nat (blocks opts') * Z.to_nat (block_len opts'))
          (file_data (init_world [x41; x42; x43; x44; x45]))
  | Fault =>
      file_data (fst r) = file_data (init_world [x41; x42; x43; x44; x45])
  end.
Proof.
  assert (Hl : forall i, env_lseek env_counting i = true)
    by (intros i; reflexivity).
  split; [exact Hl |]. split; [reflexivity |]. split; [reflexivity |].
  exact (fileshred_never_writes_beyond_plan env_counting (default_opts 0 0)
           "f" (init_world [x41; x42; x43; x44; x45]) Hl).
Defined.

(** ** Calls and resources of a run *)



Lemma doshred_resources (env : Env) (opts : shred_opts) (path : string)
  (fd loops len : Z) (w : World) :
  same_resources w (fst (doshred env opts path fd loops len w)).
Proof.
  pose proof (getblocks_world env opts len w) as G. cbv zeta in G.
  unfold doshred, bind.
  destruct (getblocks env opts len w) as [w1 [opts1 |]];
    cbn [fst] in G; destruct G as (_ & _ & T0 & V0 & H0 & _).
  - destruct (doshred_loops_spec env opts1 path fd loops w1)
      as (w2 & r & E & (T & V & H) & _).
    rewrite E. cbn. unfold same_resources. repeat split; congruence.
  - cbn. unfold same_resources. auto.
Qed.

(** X11. In every outcome and whatever the calls answer, [fileshred]
    leaves the heap and the device as it found them: every buffer it
    allocated has been freed and no descriptor on the random device is
    left open. *)
Theorem fileshred_releases_buffers (env : Env) (opts : shred_opts)
  (path : string) (w : World) :
  live_bufs (fst (fileshred env opts path w)) = live_bufs w /\
  dev_fds (fst (fileshred env opts path w)) = dev_fds w.
Proof.
  unfold fileshred, bind, sys_open. cbv zeta.
  destruct (env_open env (calls w SysOpen)); [| cbn; auto].
  cbn [Z.ltb TARGET_FD Z.compare].
  set (w0 := set_tfd _ _).
  assert (H0 : live_bufs w0 = live_bufs w) by reflexivity.
  assert (V0 : dev_fds w0 = dev_fds w) by reflexivity.
  clearbody w0.
  destruct (getfildeslen_spec env path TARGET_FD w0)
    as (w1 & len & E1 & (_ & V1 & H1) & _).
  rewrite E1.
  destruct (len <? 0); [cbn; split; congruence |].
  pose proof (doshred_resources env opts path TARGET_FD 3 (to_size_t len) w1)
    as (_ & V2 & H2).
  destruct (doshred env opts path TARGET_FD 3 (to_size_t len) w1)
    as [w2 [r |]]; cbn [fst] in V2, H2; [| cbn; split; congruence].
  unfold sys_close, ret. cbv zeta.
  change (TARGET_FD =? DEV_FD) with false. cbn [andb].
  destruct (snd r <? 0); destruct (is_tfd w2 TARGET_FD); cbn;
    split; congruence.
Qed.

(** X12. When the seeks succeed, [fileshred] returns only after closing
    the descriptor it opened: whenever it returns after a successful
    [open], with 0 or with -1, no descriptor is open on the target. *)
Theorem fileshred_closes_descriptor (env : Env) (opts : shred_opts)
  (path : string) (w : World) :
  (forall i, env_lseek env i = true) ->
  env_open env (calls w SysOpen) = true ->
  match snd (fileshred env opts path w) with
  | Val _ => tfd (fst (fileshred env opts path w)) = None
  | Fault => tfd (fst (fileshred env opts path w)) = Some TARGET_FD
  end.
Proof.
  intros Hl Ho. unfold fileshred, bind, sys_open. cbv zeta. rewrite Ho.
  cbn [Z.ltb TARGET_FD Z.compare].
  set (w0 := set_tfd _ _).
  assert (T0 : tfd w0 = Some TARGET_FD) by reflexivity.
  clearbody w0.
  destruct (getfildeslen_ok env path TARGET_FD w0 T0 (Hl _) (Hl _) (Hl _))
    as (w1 & E1 & _ & D1 & T1 & _).
  rewrite E1.
  replace (Z.of_nat (length (file_data w0)) <? 0) with false
    by (symmetry; apply Z.ltb_ge; lia).
  pose proof (doshred_resources env opts path TARGET_FD 3
                (to_size_t (Z.of_nat (length (file_data w0)))) w1)
    as (T2 & _ & _).
  destruct (doshred env opts path TARGET_FD 3
              (to_size_t (Z.of_nat (length (file_data w0)))) w1)
    as [w2 [r |]]; cbn [fst] in T2; [| cbn; congruence].
  unfold sys_close, ret. cbv zeta.
  change (TARGET_FD =? DEV_FD) with false. cbn [andb].
  destruct (snd r <? 0); cbv beta;
    rewrite (is_tfd_true w2 TARGET_FD) by congruence; reflexivity.
Qed.

Lemma fileshred_closes_descriptor_witness :
  (forall i, env_lseek env_third_malloc_fails i = true) /\
  env_open env_third_malloc_fails (calls (init_world [x41]) SysOpen) = true /\
  match snd (fileshred env_third_malloc_fails (default_opts 0 0) "f"
               (init_world [x41])) with
  | Val _ =>
      tfd (fst (fileshred env_third_malloc_fails (default_opts 0 0) "f"
                  (init_world [x41]))) = None
  | Fault =>
      tfd (fst (fileshred env_third_malloc_fails (default_opts 0 0) "f"
                  (init_world [x41]))) = Some TARGET_FD
  end.
Proof.
  split; [intros i; reflexivity |]. split; [reflexivity |].
  exact (fileshred_closes_descriptor env_third_malloc_fails
           (default_opts 0 0) "f" (init_world [x41])
           (fun i => eq_refl) eq_refl).
Defined.

(** ** The dispatcher *)

Lemma shred_block_quiet (env : Env) (opts : shred_opts) (fd : Z)
  (w : World) (k : syscall) :
  loop_call k = false ->
  calls (fst (shred_block env opts fd w)) k = calls w k.
Proof.
  intros Hk.
  unfold shred_block, readin, readin_fail, bind, ret, sys_write, sys_malloc,
    sys_open_rdonly, sys_read, sys_close, sys_free, print_err, is_tfd.
  cbv zeta. cbn.
  repeat (break_inner; cbn in *; try discriminate);
    destruct k; cbn in *; congruence.
Qed.

Lemma block_loop_quiet (env : Env) (opts : shred_opts) (fd : Z)
  (k : syscall) (n : nat) :
  loop_call k = false ->
  forall w, calls (fst (block_loop env n opts fd w)) k = calls w k.
Proof.
  intros Hk. induction n as [| n IH]; intros w; [reflexivity |].
  cbn [block_loop]. unfold bind.
  pose proof (shred_block_quiet env opts fd w k Hk) as Q.
  destruct (shred_block env opts fd w) as [w1 [[| rb] |]];
    cbn [fst] in Q; cbn [fst ret]; try assumption.
  rewrite IH. assumption.
Qed.

Lemma shred_pass_quiet (env : Env) (opts : shred_opts) (fd : Z)
  (w : World) (k : syscall) :
  loop_call k = false ->
  calls (fst (shred_pass env opts fd w)) k = calls w k.
Proof.
  intros Hk. unfold shred_pass, bind.
  destruct (sys_lseek_spec env fd 0 SEEK_SET w)
    as (w1 & r & E1 & _ & _ & C1 & _).
  rewrite E1.
  assert (Q : calls w1 k = calls w k)
    by (rewrite C1; destruct k; cbn in *; congruence).
  destruct (r <? 0); unfold print_err, ret;
    rewrite block_loop_quiet by assumption;
    [destruct k; cbn in *; congruence | assumption].
Qed.

Lemma pass_loop_quiet (env : Env) (opts : shred_opts) (fd : Z)
  (k : syscall) (n : nat) :
  loop_call k = false ->
  forall w, calls (fst (pass_loop env n opts fd w)) k = calls w k.
Proof.
  intros Hk. induction n as [| n IH]; intros w; [reflexivity |].
  cbn [pass_loop]. unfold bind.
  pose proof (shred_pass_quiet env opts fd w k Hk) as Q.
  destruct (shred_pass env opts fd w) as [w1 [[| rb] |]];
    cbn [fst] in Q; cbn [fst ret]; try assumption.
  rewrite IH. assumption.
Qed.

Lemma doshred_loops_quiet (env : Env) (opts : shred_opts) (path : string)
  (fd loops : Z) (w : World) (k : syscall) :
  loop_call k = false ->
  calls (fst (doshred_loops env opts path fd loops w)) k = calls w k.
Proof.
  intros Hk. unfold doshred_loops, bind.
  pose proof (pass_loop_quiet env opts fd k (Z.to_nat loops) Hk w) as Q.
  destruct (pass_loop env (Z.to_nat loops) opts fd w) as [w1 [[| rb] |]];
    cbn [fst] in Q; cbn [fst ret]; try assumption.
  unfold print_err, sys_free, ret.
  destruct rb; destruct k; cbn in *; congruence.
Qed.

Lemma getfildeslen_quiet (env : Env) (path : string) (fd : Z) (w : World)
  (k : syscall) :
  loop_call k = false ->
  calls (fst (getfildeslen env path fd w)) k = calls w k.
Proof.
  intros Hk.
  unfold getfildeslen, getfildeslen_fail, bind, print_err, ret.
  destruct (sys_lseek_spec env fd 0 SEEK_CUR w)
    as (w1 & r1 & E1 & _ & _ & C1 & _).
  rewrite E1.
  assert (Q1 : calls w1 k = calls w k)
    by (rewrite C1; destruct k; cbn in *; congruence).
  destruct (r1 <? 0); [destruct k; cbn in *; congruence |].
  destruct (sys_lseek_spec env fd 0 SEEK_END w1)
    as (w2 & r2 & E2 & _ & _ & C2 & _).
  rewrite E2.
  assert (Q2 : calls w2 k = calls w k)
    by (rewrite C2; destruct k; cbn in *; congruence).
  destruct (r2 <? 0); [destruct k; cbn in *; congruence |].
  destruct (sys_lseek_spec env fd r1 SEEK_SET w2)
    as (w3 & r3 & E3 & _ & _ & C3 & _).
  rewrite E3.
  assert (Q3 : calls w3 k = calls w k)
    by (rewrite C3; destruct k; cbn in *; congruence).
  destruct (r3 <? 0); [destruct k; cbn in *; congruence | assumption].
Qed.

(** [fileshred] in safe mode: it returns, keeps [safe] and does not ask
    for the memory budget *)
Lemma fileshred_safe (env : Env) (opts : shred_opts) (path : string)
  (w : World) :
  safe opts <> 0 ->
  exists w' opts' r,
    fileshred env opts path w = (w', Val (opts', r)) /\
    safe opts' = safe opts /\
    calls w' SysGetrlimit = calls w SysGetrlimit.
Proof.
  intros Hs. unfold fileshred, bind, sys_open. cbv zeta.
  destruct (env_open env (calls w SysOpen)).
  - cbn [Z.ltb TARGET_FD Z.compare].
    set (w0 := set_tfd _ _).
    assert (G0 : calls w0 SysGetrlimit = calls w SysGetrlimit)
      by reflexivity.
    clearbody w0.
    pose proof (getfildeslen_quiet env path TARGET_FD w0 SysGetrlimit eq_refl)
      as G1.
    destruct (getfildeslen_spec env path TARGET_FD w0)
      as (w1 & len & E1 & _).
    rewrite E1 in *. cbn [fst] in G1.
    destruct (len <? 0).
    + unfold ret. eexists; eexists; eexists. split; [reflexivity |].
      split; [reflexivity | congruence].
    + unfold doshred, bind.
      rewrite (getblocks_safe_eq env opts (to_size_t len) w1 Hs).
      pose proof (doshred_loops_quiet env (set_plan opts (to_size_t len) 1)
                    path TARGET_FD 3 (tick SysStdout w1) SysGetrlimit eq_refl)
        as G2.
      destruct (doshred_loops_spec env (set_plan opts (to_size_t len) 1)
                  path TARGET_FD 3 (tick SysStdout w1))
        as (w2 & r & E2 & _).
      rewrite E2 in *. cbn [fst] in G2. unfold ret, sys_close.
      cbv zeta. cbn [fst snd].
      destruct (r <? 0); cbv beta;
        destruct ((TARGET_FD =? DEV_FD) && (0 <? dev_fds w2)%nat);
        try destruct (is_tfd w2 TARGET_FD);
        eexists; eexists; eexists; (split; [reflexivity |]);
        cbn; (split; [reflexivity |]); rewrite G2; cbn; congruence.
  - unfold print_err, ret. cbn.
    eexists; eexists; eexists. split; [reflexivity |]. cbn. auto.
Qed.

(** [shred] on a path that is not an existing regular file *)
Lemma shred_non_regular (env : Env) (fs : FsEnv) (opts : shred_opts)
  (p : string) (w : World) :
  fs_access fs p = false \/ fs_stat fs p <> Some S_IFREG ->
  exists w',
    shred env fs (Some opts) (Some p) w
    = (w', Val (Some opts, rejection fs opts p)) /\
    same_file w w' /\ same_resources w w' /\
    (forall k, k <> SysStderr -> calls w' k = calls w k) /\
    (calls w SysStderr <= calls w' SysStderr)%nat /\
    (fs_access fs p = false -> calls w' SysStderr = S (calls w SysStderr)).
Proof.
  intros H. unfold shred, path_exists, getfiletype, dirshred, rejection,
    bind, print_err, ret, same_file, same_resources.
  destruct (fs_access fs p) eqn:Ea.
  - destruct H as [H | H]; [discriminate |].
    destruct (fs_stat fs p) as [[| |] |] eqn:Es; cbn.
    + congruence.
    + destruct (recursive opts =? 0); cbn;
        eexists; (split; [reflexivity |]); cbn;
        repeat split; auto; try discriminate;
        intros k Hk; destruct k; cbn; congruence.
    + eexists; (split; [reflexivity |]); cbn;
        repeat split; auto; try discriminate;
        intros k Hk; destruct k; cbn; congruence.
    + eexists; (split; [reflexivity |]); cbn;
        repeat split; auto; try discriminate;
        intros k Hk; destruct k; cbn; congruence.
  - cbn. eexists; (split; [reflexivity |]); cbn.
    repeat split; auto.
    intros k Hk; destruct k; cbn; congruence.
Qed.

(** X13. [shred] goes no further than its checks unless the path exists
    and [stat] reports a regular file: the target, the descriptors and
    the heap are as before and nothing is called beyond the diagnostics.
    The result is -1, except for a directory when [recursive] is set:
    then it is 0, although nothing has been shredded. *)
Theorem shred_rejects_non_regular (env : Env) (fs : FsEnv)
  (opts : shred_opts) (p : string) (w : World) :
  fs_access fs p = false \/ fs_stat fs p <> Some S_IFREG ->
  exists w',
    shred env fs (Some opts) (Some p) w
    = (w', Val (Some opts, rejection fs opts p)) /\
    same_file w w' /\ same_resources w w' /\
    (forall k, k <> SysStderr -> calls w' k = calls w k).
Proof.
  intros H.
  destruct (shred_non_regular env fs opts p w H)
    as (w' & E & F & R & C & _).
  exists w'. auto.
Qed.

Lemma shred_rejects_non_regular_witness :
  (fs_access fs_two "d"%string = false \/ fs_stat fs_two "d"%string <> Some S_IFREG) /\
  rejection fs_two (mk_opts 0 0 0 0 1 3) "d"%string = 0 /\
  exists w',
    shred (env_ok 4096) fs_two (Some (mk_opts 0 0 0 0 1 3)) (Some "d"%string)
      (init_world [x41])
    = (w', Val (Some (mk_opts 0 0 0 0 1 3),
                rejection fs_two (mk_opts 0 0 0 0 1 3) "d"%string)) /\
    same_file (init_world [x41]) w' /\
    same_resources (init_world [x41]) w' /\
    (forall k, k <> SysStderr -> calls w' k = calls (init_world [x41]) k).
Proof.
  assert (H : fs_access fs_two "d"%string = false
              \/ fs_stat fs_two "d"%string <> Some S_IFREG)
    by (right; simpl; discriminate).
  split; [exact H |]. split; [reflexivity |].
  exact (shred_rejects_non_regular (env_ok 4096) fs_two
           (mk_opts 0 0 0 0 1 3) "d"%string (init_world [x41]) H).
Defined.

Lemma shred_args_no_regular (env : Env) (fs : FsEnv) (opts : shred_opts)
  (args : list string) :
  no_regular fs args ->
  forall w,
  exists w',
    shred_args env fs opts args w = (w', Val opts) /\
    same_file w w' /\ same_resources w w' /\
    (forall k, k <> SysStderr -> calls w' k = calls w k) /\
    (calls w SysStderr <= calls w' SysStderr)%nat /\
    (none_exists fs args ->
     calls w' SysStderr = (calls w SysStderr + length args)%nat).
Proof.
  unfold same_file, same_resources.
  induction 1 as [| p args Hp Hargs IH]; intros w.
  - exists w. cbn. repeat split; auto; lia.
  - cbn [shred_args]. unfold bind.
    destruct (shred_non_regular env fs opts p w Hp)
      as (w1 & E1 & (D1 & P1) & (T1 & V1 & H1) & C1 & G1 & N1).
    rewrite E1. cbn [fst].
    destruct (IH w1) as (w2 & E2 & (D2 & P2) & (T2 & V2 & H2) & C2 & G2 & N2).
    rewrite E2. exists w2. split; [reflexivity |].
    repeat split; try congruence.
    + intros k Hk. rewrite C2, C1 by assumption. reflexivity.
    + lia.
    + intros Hn. inversion Hn as [| ? ? Ha Hrest]; subst.
      rewrite (N2 Hrest), (N1 Ha). cbn [length]. lia.
Qed.

(** X14. When no argument is an existing regular file, [main] returns 0
    all the same; it has touched nothing and called nothing but the
    diagnostics, and when no argument exists at all it has printed
    exactly one diagnostic for each. *)
Theorem main_returns_0_without_shredding (env : Env) (fs : FsEnv)
  (b bl : Z) (args : list string) (w : World) :
  no_regular fs args ->
  exists w',
    main env fs b bl args w = (w', Val 0) /\
    same_file w w' /\ same_resources w w' /\
    (forall k, k <> SysStderr -> calls w' k = calls w k) /\
    (none_exists fs args ->
     calls w' SysStderr = (calls w SysStderr + length args)%nat).
Proof.
  intros H. unfold main, bind.
  destruct (shred_args_no_regular env fs (default_opts b bl) args H w)
    as (w' & E & F & R & C & _ & N).
  rewrite E. exists w'. unfold ret. auto.
Qed.

Lemma main_returns_0_without_shredding_witness :
  no_regular fs_two ["x"%string; "d"%string; "y"%string] /\
  exists w',
    main (env_ok 4096) fs_two 0 0 ["x"%string; "d"%string; "y"%string] (init_world [x41])
    = (w', Val 0) /\
    same_file (init_world [x41]) w' /\
    same_resources (init_world [x41]) w' /\
    (forall k, k <> SysStderr -> calls w' k = calls (init_world [x41]) k) /\
    (none_exists fs_two ["x"%string; "d"%string; "y"%string] ->
     calls w' SysStderr
     = (calls (init_world [x41]) SysStderr
        + length ["x"%string; "d"%string; "y"%string])%nat).
Proof.
  assert (H : no_regular fs_two ["x"%string; "d"%string; "y"%string]).
  { apply Forall_cons; [left; reflexivity |].
    apply Forall_cons; [right; simpl; discriminate |].
    apply Forall_cons; [left; reflexivity | apply Forall_nil]. }
  split; [exact H |].
  exact (main_returns_0_without_shredding (env_ok 4096) fs_two 0 0
           ["x"%string; "d"%string; "y"%string] (init_world [x41]) H).
Defined.

(** X15. The options structure is shared by all the arguments, and safe
    mode, once set, stays: from options with [safe] set, the loop of
    [main] over any arguments returns (it cannot fault), [safe] has the
    same value afterwards, and [getrlimit] has not been called for any of
    the files. *)
Theorem shred_args_safe_is_sticky (env : Env) (fs : FsEnv)
  (args : list string) :
  forall (opts : shred_opts) (w : World),
  safe opts <> 0 ->
  exists w' opts',
    shred_args env fs opts args w = (w', Val opts') /\
    safe opts' = safe opts /\
    calls w' SysGetrlimit = calls w SysGetrlimit.
Proof.
  induction args as [| p args IH]; intros opts w Hs.
  - exists w, opts. cbn. auto.
  - cbn [shred_args]. unfold bind.
    assert (S1 : exists w1 opts1 r1,
               shred env fs (Some opts) (Some p) w
               = (w1, Val (Some opts1, r1)) /\
               safe opts1 = safe opts /\
               calls w1 SysGetrlimit = calls w SysGetrlimit).
    { destruct (fs_access fs p) eqn:Ea;
        [destruct (fs_stat fs p) as [[| |] |] eqn:Es |].
      - unfold shred, path_exists, getfiletype, bind, ret.
        rewrite Ea, Es. cbn [Z.eqb TYPE_FILE].
        destruct (fileshred_safe env opts p w Hs)
          as (w1 & opts1 & r1 & E1 & Hs1 & G1).
        rewrite E1. cbn [fst snd].
        exists w1, opts1, r1. auto.
      - destruct (shred_non_regular env fs opts p w) as (w1 & E1 & _ & _ & C1 & _);
          [right; rewrite Es; discriminate |].
        exists w1, opts, (rejection fs opts p).
        split; [exact E1 |]. split; [reflexivity |].
        apply C1. discriminate.
      - destruct (shred_non_regular env fs opts p w) as (w1 & E1 & _ & _ & C1 & _);
          [right; rewrite Es; discriminate |].
        exists w1, opts, (rejection fs opts p).
        split; [exact E1 |]. split; [reflexivity |].
        apply C1. discriminate.
      - destruct (shred_non_regular env fs opts p w) as (w1 & E1 & _ & _ & C1 & _);
          [right; rewrite Es; discriminate |].
        exists w1, opts, (rejection fs opts p).
        split; [exact E1 |]. split; [reflexivity |].
        apply C1. discriminate.
      - destruct (shred_non_regular env fs opts p w) as (w1 & E1 & _ & _ & C1 & _);
          [left; exact Ea |].
        exists w1, opts, (rejection fs opts p).
        split; [exact E1 |]. split; [reflexivity |].
        apply C1. discriminate. }
    destruct S1 as (w1 & opts1 & r1 & E1 & Hs1 & G1).
    rewrite E1. cbn [fst].
    destruct (IH opts1 w1) as (w2 & opts2 & E2 & Hs2 & G2); [congruence |].
    rewrite E2. exists w2, opts2. split; [reflexivity |].
    split; congruence.
Qed.

Lemma shred_args_safe_is_sticky_witness :
  safe (mk_opts 0 0 1 0 0 3) <> 0 /\
  exists w' opts',
    shred_args env_no_budget fs_two (mk_opts 0 0 1 0 0 3) ["f"%string; "d"%string; "f"%string]
      (init_world [x41; x42])
    = (w', Val opts') /\
    safe opts' = safe (mk_opts 0 0 1 0 0 3) /\
    calls w' SysGetrlimit = calls (init_world [x41; x42]) SysGetrlimit.
Proof.
  assert (H : safe (mk_opts 0 0 1 0 0 3) <> 0) by (simpl; discriminate).
  split; [exact H |].
  exact (shred_args_safe_is_sticky env_no_budget fs_two ["f"%string; "d"%string; "f"%string]
           (mk_opts 0 0 1 0 0 3) (init_world [x41; x42]) H).
Defined.

(** ** More on single runs *)

Lemma readin_bytes_length (env : Env) (n : nat) (w : World) :
  length (readin_bytes env n w) = n.
Proof.
  unfold readin_bytes. cbv zeta.
  destruct (env_devopen env (calls w SysDevOpen));
    [destruct (env_read env (calls w SysRead)) as [src |] |];
    try apply fresh_length.
  rewrite length_app, length_firstn, length_skipn, fresh_length. lia.
Qed.

(** X16. A block writes to the file exactly the buffer that [readin]
    returned, whatever that buffer holds: when the allocation succeeds
    and the write is served in full, the [block_len] bytes at the offset
    become the bytes read from the device followed by what [malloc] left
    in the rest of the buffer, and when the device cannot be opened or
    read they become what [malloc] left in the whole buffer; the block
    completes all the same. *)
Theorem shred_block_writes_buffer (env : Env) (opts : shred_opts) (fd : Z)
  (w : World) :
  let bl := Z.to_nat (block_len opts) in
  env_malloc env (calls w SysMalloc) = true ->
  env_write env (S (calls w SysWrite)) = WriteAll ->
  tfd w = Some fd -> fits w bl ->
  exists w',
    shred_block env opts fd w = (w', Val Next) /\
    file_data w'
    = firstn (file_pos w) (file_data w) ++ readin_bytes env bl w
        ++ skipn (file_pos w + bl) (file_data w) /\
    file_pos w' = (file_pos w + bl)%nat /\
    live_bufs w' = live_bufs w.
Proof.
  intros bl Hm Hw Ht Hf. unfold shred_block, bind.
  pose proof (sys_write_null env fd (block_len opts) w) as [D1 P1].
  destruct (sys_write_spec env fd None (block_len opts) w)
    as (w1 & r1 & E1 & (T1 & _ & H1) & C1 & _).
  rewrite E1 in *. cbn [fst] in D1, P1.
  assert (Cm : calls w1 SysMalloc = calls w SysMalloc)
    by (rewrite C1; reflexivity).
  assert (Cw : calls w1 SysWrite = S (calls w SysWrite))
    by (rewrite C1; reflexivity).
  assert (Cd : calls w1 SysDevOpen = calls w SysDevOpen)
    by (rewrite C1; reflexivity).
  assert (Cr : calls w1 SysRead = calls w SysRead)
    by (rewrite C1; reflexivity).
  destruct (readin_buffer env "/dev/urandom" (block_len opts) w1)
    as (w2 & E2 & [D2 P2] & T2 & _ & W2); [congruence |].
  destruct (readin_spec env "/dev/urandom" (block_len opts) w1)
    as (w2' & rb & E2' & _ & _ & _ & _ & _ & _ & A2).
  rewrite E2 in E2'. inversion E2'; subst w2' rb. clear E2'.
  rewrite Cm, Hm in A2. destruct A2 as [_ H2].
  rewrite Cm, Cd, Cr in E2. fold bl in E2.
  change (if env_devopen env (calls w SysDevOpen)
          then match env_read env (calls w SysRead) with
               | Some src =>
                   firstn bl src
                   ++ skipn (Nat.min bl (length src))
                        (map (env_fresh env (calls w SysMalloc)) (seq 0 bl))
               | None => map (env_fresh env (calls w SysMalloc)) (seq 0 bl)
               end
          else map (env_fresh env (calls w SysMalloc)) (seq 0 bl))
    with (readin_bytes env bl w) in E2.
  rewrite E2.
  destruct (sys_write_full env fd (readin_bytes env bl w) (block_len opts) w2)
    as (w3 & r3 & E3 & D3 & P3 & (T3 & _ & H3) & C3);
    [congruence | rewrite W2, Cw; exact Hw | apply readin_bytes_length
     | unfold fits in *; rewrite P2, P1, D2, D1; exact Hf |].
  rewrite E3. unfold sys_free, ret. cbn.
  eexists. split; [reflexivity |]. cbn. fold bl in D3, P3.
  rewrite D3, P3, P2, P1, D2, D1, H3, H2, H1.
  repeat split; reflexivity.
Qed.

Lemma shred_block_writes_buffer_witness :
  env_malloc env_no_device (calls (open_world [x41; x42]) SysMalloc) = true /\
  env_devopen env_no_device (calls (open_world [x41; x42]) SysDevOpen)
    = false /\
  env_write env_no_device (S (calls (open_world [x41; x42]) SysWrite))
    = WriteAll /\
  tfd (open_world [x41; x42]) = Some TARGET_FD /\
  fits (open_world [x41; x42]) (Z.to_nat (block_len (mk_opts 2 1 1 0 0 3)))
  /\
  exists w',
    shred_block env_no_device (mk_opts 2 1 1 0 0 3) TARGET_FD
      (open_world [x41; x42])
    = (w', Val Next) /\
    file_data w' = [xaa; x42] /\
    file_pos w' = 1%nat /\
    live_bufs w' = live_bufs (open_world [x41; x42]).
Proof.
  assert (Hf : fits (open_world [x41; x42])
                 (Z.to_nat (block_len (mk_opts 2 1 1 0 0 3))))
    by (unfold fits; simpl; lia).
  split; [reflexivity |]. split; [reflexivity |]. split; [reflexivity |].
  split; [reflexivity |]. split; [exact Hf |].
  exact (shred_block_writes_buffer env_no_device (mk_opts 2 1 1 0 0 3)
           TARGET_FD (open_world [x41; x42]) eq_refl eq_refl eq_refl Hf).
Defined.

Lemma getfildeslen_calls (env : Env) (path : string) (fd : Z) (w : World)
  (k : syscall) :
  k <> SysLseek -> k <> SysStderr ->
  calls (fst (getfildeslen env path fd w)) k = calls w k.
Proof.
  intros K1 K2.
  unfold getfildeslen, getfildeslen_fail, bind, print_err, ret.
  destruct (sys_lseek_spec env fd 0 SEEK_CUR w)
    as (w1 & r1 & E1 & _ & _ & C1 & _).
  rewrite E1.
  assert (Q1 : calls w1 k = calls w k)
    by (rewrite C1; destruct k; cbn in *; congruence).
  destruct (r1 <? 0); [destruct k; cbn in *; congruence |].
  destruct (sys_lseek_spec env fd 0 SEEK_END w1)
    as (w2 & r2 & E2 & _ & _ & C2 & _).
  rewrite E2.
  assert (Q2 : calls w2 k = calls w k)
    by (rewrite C2; destruct k; cbn in *; congruence).
  destruct (r2 <? 0); [destruct k; cbn in *; congruence |].
  destruct (sys_lseek_spec env fd r1 SEEK_SET w2)
    as (w3 & r3 & E3 & _ & _ & C3 & _).
  rewrite E3.
  assert (Q3 : calls w3 k = calls w k)
    by (rewrite C3; destruct k; cbn in *; congruence).
  destruct (r3 <? 0); [destruct k; cbn in *; congruence | assumption].
Qed.

(** X17. An empty file in safe mode: when [open] and the seeks succeed,
    [fileshred] plans no block, makes its three passes without a single
    write or call of the random source, closes the descriptor and
    returns 0. *)
Theorem fileshred_empty_file_safe_mode (env : Env) (opts : shred_opts)
  (path : string) (w : World) :
  safe opts <> 0 -> file_data w = [] ->
  env_open env (calls w SysOpen) = true ->
  (forall i, env_lseek env i = true) ->
  exists w',
    fileshred env opts path w = (w', Val (set_plan opts 0 1, 0)) /\
    file_data w' = [] /\ tfd w' = None /\
    calls w' SysWrite = calls w SysWrite /\
    calls w' SysMalloc = calls w SysMalloc /\
    calls w' SysLseek = (calls w SysLseek + 6)%nat.
Proof.
  intros Hs He Ho Hl.
  unfold fileshred, bind, sys_open. cbv zeta. rewrite Ho.
  cbn [Z.ltb TARGET_FD Z.compare].
  set (w0 := set_tfd _ _).
  assert (D0 : file_data w0 = []) by (subst w0; cbn; exact He).
  assert (T0 : tfd w0 = Some TARGET_FD) by reflexivity.
  assert (C0w : calls w0 SysWrite = calls w SysWrite) by reflexivity.
  assert (C0m : calls w0 SysMalloc = calls w SysMalloc) by reflexivity.
  assert (C0l : calls w0 SysLseek = calls w SysLseek) by reflexivity.
  clearbody w0.
  destruct (getfildeslen_ok env path TARGET_FD w0 T0 (Hl _) (Hl _) (Hl _))
    as (w1 & E1 & _ & D1 & T1 & S1 & _).
  pose proof (getfildeslen_calls env path TARGET_FD w0 SysWrite) as Q1w.
  pose proof (getfildeslen_calls env path TARGET_FD w0 SysMalloc) as Q1m.
  rewrite E1 in *. cbn [fst] in Q1w, Q1m. rewrite D0 in *.
  cbn [length Z.of_nat Z.ltb Z.compare].
  change (to_size_t 0) with 0.
  unfold doshred, bind. rewrite (getblocks_safe_eq env opts 0 w1 Hs).
  destruct (doshred_loops_spec env (set_plan opts 0 1) path TARGET_FD 3
              (tick SysStdout w1))
    as (w2 & r & E2 & (T2 & _ & _) & L2 & A2).
  rewrite E2. cbn [blocks set_plan Z.to_nat Nat.mul] in A2.
  rewrite Nat.mul_0_r in A2.
  destruct A2 as [(-> & (_ & Mc & Wc) & Sc) | (_ & j & Hj & _)]; [| lia].
  assert (L : length (file_data w2) = 0%nat).
  { rewrite L2; [cbn; rewrite D1; reflexivity | cbn; congruence
                 | exact Hl | cbn; lia]. }
  apply length_zero_iff_nil in L.
  unfold ret, sys_close. cbv zeta. cbn [fst snd Z.ltb Z.compare].
  change (TARGET_FD =? DEV_FD) with false. cbn [andb].
  rewrite (is_tfd_true w2 TARGET_FD) by (rewrite T2; cbn; congruence).
  eexists. split; [reflexivity |]. cbn. cbn in Mc, Wc, Sc.
  rewrite L, Wc, Mc, Sc, S1, Q1w, Q1m, C0w, C0m, C0l by discriminate.
  repeat split; lia.
Qed.

Lemma fileshred_empty_file_safe_mode_witness :
  safe (set_safe (default_opts 0 0) 1) <> 0 /\
  file_data (init_world []) = [] /\
  env_open (env_ok 4096) (calls (init_world []) SysOpen) = true /\
  (forall i, env_lseek (env_ok 4096) i = true) /\
  exists w',
    fileshred (env_ok 4096) (set_safe (default_opts 0 0) 1) "f"
      (init_world [])
    = (w', Val (set_plan (set_safe (default_opts 0 0) 1) 0 1, 0)) /\
    file_data w' = [] /\ tfd w' = None /\
    calls w' SysWrite = calls (init_world []) SysWrite /\
    calls w' SysMalloc = calls (init_world []) SysMalloc /\
    calls w' SysLseek = (calls (init_world []) SysLseek + 6)%nat.
Proof.
  assert (Hs : safe (set_safe (default_opts 0 0) 1) <> 0)
    by (simpl; discriminate).
  split; [exact Hs |]. split; [reflexivity |]. split; [reflexivity |].
  split; [intros i; reflexivity |].
  exact (fileshred_empty_file_safe_mode (env_ok 4096)
           (set_safe (default_opts 0 0) 1) "f" (init_world [])
           Hs eq_refl eq_refl (fun i => eq_refl)).
Defined.

(** ** Repeated runs *)

(** the length of the file across one call of [fileshred] *)
Lemma fileshred_length (env : Env) (opts : shred_opts)
  (path : string) (w : World) :
  (forall i, env_lseek env i = true) ->
  length (file_data (fst (fileshred env opts path w)))
  = length (file_data w).
Proof.
  intros Hl. unfold fileshred, bind, sys_open. cbv zeta.
  destruct (env_open env (calls w SysOpen)); [| reflexivity].
  cbn [Z.ltb TARGET_FD Z.compare].
  set (w0 := set_tfd _ _).
  assert (D0 : file_data w0 = file_data w) by reflexivity.
  assert (T0 : tfd w0 = Some TARGET_FD) by reflexivity.
  clearbody w0.
  destruct (getfildeslen_spec env path TARGET_FD w0)
    as (w1 & len & E1 & (T1 & _ & _) & D1 & A1).
  rewrite E1.
  destruct (len <? 0) eqn:N; [cbn; congruence |].
  apply Z.ltb_ge in N. destruct A1 as [A1 | A1]; [lia |].
  assert (Hlen : 0 <= to_size_t len <= Z.of_nat (length (file_data w1))).
  { pose proof (to_size_t_range len). pose proof (to_size_t_le len N).
    rewrite D1. lia. }
  pose proof (doshred_keeps_length env opts path TARGET_FD 3 (to_size_t len)
                w1 (eq_trans T1 T0) Hl Hlen) as K.
  cbv zeta in K.
  destruct (doshred env opts path TARGET_FD 3 (to_size_t len) w1)
    as [w2 [r |]]; cbn [fst] in K; destruct K as [K _].
  - unfold sys_close, ret. cbv zeta.
    destruct (snd r <? 0);
      repeat (break_inner; cbn [fst file_data set_tfd set_dev_fds tick]);
      congruence.
  - cbn [fst]. congruence.
Qed.

Lemma shred_length (env : Env) (fs : FsEnv) (opts : shred_opts) (p : string)
  (w : World) :
  (forall i, env_lseek env i = true) ->
  length (file_data (fst (shred env fs (Some opts) (Some p) w)))
  = length (file_data w).
Proof.
  intros Hl.
  unfold shred, path_exists, getfiletype, dirshred, bind, print_err, ret.
  destruct (fs_access fs p); [| reflexivity].
  destruct (fs_stat fs p) as [[| |] |]; cbn.
  - pose proof (fileshred_length env opts p w Hl) as L.
    destruct (fileshred env opts p w) as [w1 [r |]]; exact L.
  - destruct (recursive opts =? 0); reflexivity.
  - reflexivity.
  - reflexivity.
Qed.

(** X18. Shredding again is harmless for the length: whatever the
    arguments of [main] are, and however often a path is repeated among
    them, the file is as long after the run as before, when the seeks
    succeed; this holds in every outcome of every call. *)
Theorem main_preserves_length (env : Env) (fs : FsEnv) (b bl : Z)
  (args : list string) (w : World) :
  (forall i, env_lseek env i = true) ->
  length (file_data (fst (main env fs b bl args w))) = length (file_data w).
Proof.
  intros Hl. unfold main, bind.
  assert (K : forall opts w0,
             length (file_data (fst (shred_args env fs opts args w0)))
             = length (file_data w0)).
  { induction args as [| p args IH]; intros opts w0; [reflexivity |].
    cbn [shred_args]. unfold bind.
    pose proof (shred_length env fs opts p w0 Hl) as L.
    destruct (shred env fs (Some opts) (Some p) w0) as [w1 [r |]];
      cbn [fst] in L; [| exact L].
    rewrite IH. exact L. }
  specialize (K (default_opts b bl) w).
  destruct (shred_args env fs (default_opts b bl) args w) as [w1 [o |]];
    exact K.
Qed.

Lemma main_preserves_length_witness :
  (forall i, env_lseek env_counting i = true) /\
  length (file_data (fst (main env_counting fs_two 0 0
                            ["f"%string; "f"%string]
                            (init_world [x41; x42; x43]))))
  = length (file_data (init_world [x41; x42; x43])).
Proof.
  split; [intros i; reflexivity |].
  exact (main_preserves_length env_counting fs_two 0 0
           ["f"%string; "f"%string] (init_world [x41; x42; x43])
           (fun i => eq_refl)).
Defined.

(** ** The configuration across the core operations *)








